(** * Model runners and their window: a shallow embedding of
    [decorators.py], [models.py] and the handlers of [gui.py]

    The two runner classes wrap an inference pipeline obtained from an
    external provider.  Their methods are embedded as computations in a
    small reader/state/exception monad: the reader is the environment
    (clock, model hub, image decoder), the state is the runner object
    [self] together with a log of the effects performed so far, and a
    computation either returns or raises.

    Wall-clock readings are Python floats; they are abstracted here as
    rationals, which keeps subtraction and ordering and drops rounding. *)

From Stdlib Require Import Ascii String QArith.
From stdpp Require Import gmap strings list fin_maps pretty.

Set Warnings "-register-all".
Local Open Scope string_scope.

(** ** Python values *)

(** A PIL image object; [image_class] is the name of its concrete class. *)
Record Image := { image_class : string; image_id : nat }.

Inductive value :=
| VNone
| VBool (b : bool)
| VInt (z : Z)
| VFloat (q : Q)
| VStr (s : string)
| VImage (img : Image)
| VList (l : list value)
| VDict (d : gmap string value).

Inductive exn :=
| RuntimeError (msg : string)
| TypeError (msg : string)
| ValueError (msg : string)
| OtherError (cls msg : string).

Inductive outcome (A : Type) :=
| Returned (a : A)
| Raised (e : exn).
Arguments Returned {A} a.
Arguments Raised {A} e.

(** [type(v).__name__] *)
Definition type_name (v : value) : string :=
  match v with
  | VNone => "NoneType"
  | VBool _ => "bool"
  | VInt _ => "int"
  | VFloat _ => "float"
  | VStr _ => "str"
  | VImage img => image_class img
  | VList _ => "list"
  | VDict _ => "dict"
  end.

(** The builtin [len]. *)
Definition py_len (v : value) : outcome nat :=
  match v with
  | VStr s => Returned (String.length s)
  | VList l => Returned (length l)
  | VDict d => Returned (size d)
  | _ => Raised (TypeError ("object of type '" ++ type_name v ++ "' has no len()"))
  end.

(** The builtin [isinstance(v, (str,))]. *)
Definition is_str (v : value) : bool :=
  match v with VStr _ => true | _ => false end.

(** The builtin [isinstance(v, Image.Image)]. *)
Definition is_image (v : value) : bool :=
  match v with VImage _ => true | _ => false end.

(** *** The builtin [int] *)

Definition py_isspace (a : ascii) : bool :=
  let n := nat_of_ascii a in
  ((9 <=? n)%nat && (n <=? 13)%nat) || ((28 <=? n)%nat && (n <=? 32)%nat).

Fixpoint lstrip (s : string) : string :=
  match s with
  | String a s' => if py_isspace a then lstrip s' else s
  | EmptyString => s
  end.

Definition strip (s : string) : string :=
  String.rev (lstrip (String.rev (lstrip s))).

Definition digit_of (a : ascii) : option Z :=
  let n := nat_of_ascii a in
  if ((48 <=? n)%nat && (n <=? 57)%nat)%bool
  then Some (Z.of_nat (n - 48)) else None.

(** Decimal digits, where one underscore may separate two digits.
    [prev] tells whether the previous character was a digit. *)
Fixpoint parse_digits (acc : Z) (prev : bool) (s : string) : option Z :=
  match s with
  | EmptyString => if prev then Some acc else None
  | String a s' =>
      match digit_of a with
      | Some d => parse_digits (10 * acc + d)%Z true s'
      | None =>
          if (Ascii.eqb a "_" && prev)%bool
          then parse_digits acc false s' else None
      end
  end.

Definition parse_int (s : string) : option Z :=
  match strip s with
  | String "+" s' => parse_digits 0 false s'
  | String "-" s' => Z.opp <$> parse_digits 0 false s'
  | s' => parse_digits 0 false s'
  end.

(** [repr(s)] of a string of ASCII characters. *)
Definition dquote : ascii := ascii_of_nat 34.
Definition squote : ascii := ascii_of_nat 39.
Definition backslash : ascii := ascii_of_nat 92.

Fixpoint contains (c : ascii) (s : string) : bool :=
  match s with
  | EmptyString => false
  | String a s' => Ascii.eqb a c || contains c s'
  end.

Definition hex_digit (n : nat) : ascii :=
  if (n <? 10)%nat then ascii_of_nat (48 + n) else ascii_of_nat (87 + n).

Definition repr_char (quote a : ascii) : string :=
  let n := nat_of_ascii a in
  if (Ascii.eqb a quote || Ascii.eqb a backslash)%bool
  then String backslash (String a EmptyString)
  else if (n =? 9)%nat then String backslash "t"
  else if (n =? 10)%nat then String backslash "n"
  else if (n =? 13)%nat then String backslash "r"
  else if ((n <? 32)%nat || (n =? 127)%nat)%bool
  then String backslash
         (String "x" (String (hex_digit (n / 16)) (String (hex_digit (n mod 16)) EmptyString)))
  else String a EmptyString.

Fixpoint repr_chars (quote : ascii) (s : string) : string :=
  match s with
  | EmptyString => EmptyString
  | String a s' => repr_char quote a ++ repr_chars quote s'
  end.

Definition py_repr (s : string) : string :=
  let quote :=
    if (contains squote s && negb (contains dquote s))%bool
    then dquote else squote in
  String quote (repr_chars quote s ++ String quote EmptyString).

(** [int(v)]: integers and booleans as they are, floats truncated towards
    zero, strings read as decimal literals. *)
Definition py_int (v : value) : outcome Z :=
  match v with
  | VInt z => Returned z
  | VBool b => Returned (if b then 1 else 0)%Z
  | VFloat q => Returned (Z.quot (Qnum q) (Zpos (Qden q)))
  | VStr s =>
      match parse_int s with
      | Some z => Returned z
      | None => Raised (ValueError ("invalid literal for int() with base 10: " ++ py_repr s))
      end
  | _ =>
      Raised (TypeError
        ("int() argument must be a string, a bytes-like object or a real number, not '"
           ++ type_name v ++ "'"))
  end.

(** ** The environment and the runner object *)

(** A loaded pipeline: a callable taking one input and an optional
    [top_k].  Its behaviour belongs to the provider; the first argument
    is the moment of the call, so that a call may fail at one time and
    succeed at another. *)
Record Pipe := { pipe_call : nat -> value -> option Z -> outcome value }.

(** What the outside world answers, as a function of the number of
    requests made so far: [time.time()], [transformers.pipeline(task=,
    model=)] and [Image.open(path).convert("RGB")]. *)
Record Env := {
  time_time : nat -> Q;
  pipeline : nat -> string -> string -> outcome Pipe;
  Image_open_convert : nat -> string -> outcome Image;
}.

Inductive event :=
| EvPrint (line : string)
| EvTime (t : Q)
| EvPipeline (task model : string)
| EvImageOpen (path : string)
| EvPipeCall (input : value) (top_k : option Z)
| EvSetAttr (name : string).

Record World := { tick : nat; trace : list event }.

Inductive runner_class := TextModelRunner | ImageModelRunner.

Definition class_name (c : runner_class) : string :=
  match c with
  | TextModelRunner => "TextModelRunner"
  | ImageModelRunner => "ImageModelRunner"
  end.

(** The dataclass [BaseModelRunner].  [_logger_enabled] is not a declared
    field: [None] stands for the attribute being absent. *)
Record Runner := {
  cls : runner_class;
  model_id : string;
  task : string;
  category : string;
  short_description : string;
  _initialized : bool;
  _pipe : option Pipe;
  last_runtime_s : Q;
  _logger_enabled : option bool;
}.

(** The generated [__init__]. *)
Definition new_runner (c : runner_class)
    (model_id task category short_description : string) : Runner :=
  {| cls := c; model_id := model_id; task := task; category := category;
     short_description := short_description;
     _initialized := false; _pipe := None; last_runtime_s := 0;
     _logger_enabled := None |}.

Definition initialized (self : Runner) : bool := _initialized self.

(** ** The monad of method bodies *)

Definition M (A : Type) : Type :=
  Env -> Runner -> World -> outcome A * Runner * World.

Definition ret {A} (a : A) : M A := fun _ self w => (Returned a, self, w).

Definition raise {A} (e : exn) : M A := fun _ self w => (Raised e, self, w).

Definition bind {A B} (m : M A) (k : A -> M B) : M B :=
  fun env self w =>
    match m env self w with
    | (Returned a, self', w') => k a env self' w'
    | (Raised e, self', w') => (Raised e, self', w')
    end.

Declare Scope py_scope.
Delimit Scope py_scope with py.
Notation "x <- m ;; k" := (bind m (fun x => k))
  (at level 100, m at next level, right associativity) : py_scope.
Notation "m ;; k" := (bind m (fun _ => k))
  (at level 100, right associativity) : py_scope.
Local Open Scope py_scope.

(** [try: body finally: fin] *)
Definition try_finally {A} (body : M A) (fin : M unit) : M A :=
  fun env self w =>
    match body env self w with
    | (res, self', w') =>
        match fin env self' w' with
        | (Returned _, self'', w'') => (res, self'', w'')
        | (Raised e, self'', w'') => (Raised e, self'', w'')
        end
    end.

Definition lift {A} (o : outcome A) : M A := fun _ self w => (o, self, w).

Definition get_self : M Runner := fun _ self w => (Returned self, self, w).

Definition emit (ev : event) : M unit :=
  fun _ self w => (Returned tt, self, {| tick := tick w; trace := trace w ++ [ev] |}).

(** One request to the outside world. *)
Definition ask {A} (f : Env -> nat -> A) : M A :=
  fun env self w =>
    (Returned (f env (tick w)), self, {| tick := S (tick w); trace := trace w |}).

(** Attribute assignment, [self.name = ...]. *)
Definition with_last_runtime_s (q : Q) (self : Runner) : Runner :=
  {| cls := cls self; model_id := model_id self; task := task self;
     category := category self; short_description := short_description self;
     _initialized := _initialized self; _pipe := _pipe self;
     last_runtime_s := q; _logger_enabled := _logger_enabled self |}.

Definition with__pipe (p : option Pipe) (self : Runner) : Runner :=
  {| cls := cls self; model_id := model_id self; task := task self;
     category := category self; short_description := short_description self;
     _initialized := _initialized self; _pipe := p;
     last_runtime_s := last_runtime_s self;
     _logger_enabled := _logger_enabled self |}.

Definition with__initialized (b : bool) (self : Runner) : Runner :=
  {| cls := cls self; model_id := model_id self; task := task self;
     category := category self; short_description := short_description self;
     _initialized := b; _pipe := _pipe self;
     last_runtime_s := last_runtime_s self;
     _logger_enabled := _logger_enabled self |}.

Definition set_attr (name : string) (update : Runner -> Runner) : M unit :=
  fun _ self w =>
    (Returned tt, update self,
     {| tick := tick w; trace := trace w ++ [EvSetAttr name] |}).

Definition set_last_runtime_s (q : Q) : M unit :=
  set_attr "last_runtime_s" (with_last_runtime_s q).

Definition set__pipe (p : Pipe) : M unit :=
  set_attr "_pipe" (with__pipe (Some p)).

Definition set__initialized (b : bool) : M unit :=
  set_attr "_initialized" (with__initialized b).

(** [time.time()] *)
Definition py_time : M Q :=
  t <- ask time_time ;; emit (EvTime t) ;; ret t.

(** [print(line)] *)
Definition py_print (line : string) : M unit := emit (EvPrint line).

(** [pipeline(task=task, model=model)] *)
Definition call_pipeline (task model : string) : M Pipe :=
  emit (EvPipeline task model) ;;
  res <- ask (fun env n => pipeline env n task model) ;;
  lift res.

(** [Image.open(path).convert("RGB")] *)
Definition call_Image_open (path : string) : M Image :=
  emit (EvImageOpen path) ;;
  res <- ask (fun env n => Image_open_convert env n path) ;;
  lift res.

(** [self._pipe(input)] and [self._pipe(input, top_k=k)] *)
Definition call_pipe (input : value) (top_k : option Z) : M value :=
  self <- get_self ;;
  match _pipe self with
  | None => raise (TypeError "'NoneType' object is not callable")
  | Some p =>
      emit (EvPipeCall input top_k) ;;
      res <- ask (fun _ n => pipe_call p n input top_k) ;;
      lift res
  end.

(** ** decorators.py *)

Module decorators.

Definition timeit {A} (fn : M A) : M A :=
  start <- py_time ;;
  try_finally fn
    (stop <- py_time ;; set_last_runtime_s (stop - start)%Q).

Definition ensure_initialized {A} (fn : M A) : M A :=
  self <- get_self ;;
  if negb (_initialized self)
  then raise (RuntimeError "Model is not initialized. Call `load()` first.")
  else fn.

End decorators.

(** ** models.py *)

Import decorators.

Definition nl : string := String (ascii_of_nat 10) EmptyString.

(** [a or b] on strings: the empty string is the only false one. *)
Definition str_or (a b : string) : string :=
  match a with EmptyString => b | _ => a end.

Module LoggingMixin.

Definition log (message : string) : M unit :=
  self <- get_self ;;
  if default true (_logger_enabled self)
  then py_print ("[LOG] " ++ class_name (cls self) ++ ": " ++ message)
  else ret tt.

End LoggingMixin.

Module BaseModelRunner.

Definition describe (self : Runner) : string :=
  "Generic model runner for task='" ++ task self
    ++ "', model='" ++ model_id self ++ "'.".

(** [self.describe()] is looked up in the class of [self]: the method
    found there is the first argument. *)
Definition meta (describe : Runner -> string) (self : Runner) : gmap string string :=
  {[ "name" := model_id self;
     "category" := category self;
     "short_description" := str_or (short_description self) (describe self) ]}.

End BaseModelRunner.

(** The mapping both [run] methods return. *)
Definition result_dict (results : value) (self : Runner) : gmap string value :=
  {[ "results" := results;
     "runtime_s" := VFloat (last_runtime_s self);
     "model" := VStr (model_id self);
     "task" := VStr (task self) ]}.

Module TextModelRunner.

Definition load_body : M unit :=
  self <- get_self ;;
  LoggingMixin.log
    ("Loading text pipeline: task=" ++ task self ++ ", model=" ++ model_id self) ;;
  p <- call_pipeline (task self) (model_id self) ;;
  set__pipe p ;;
  set__initialized true.

Definition load : M unit := timeit load_body.

Definition run_body (user_input : value) (kwargs : gmap string value)
    : M (gmap string value) :=
  n <- lift (py_len user_input) ;;
  LoggingMixin.log ("Running text model on input length=" ++ pretty n) ;;
  results <- call_pipe user_input None ;;
  self <- get_self ;;
  ret (result_dict results self).

Definition run (user_input : value) (kwargs : gmap string value)
    : M (gmap string value) :=
  ensure_initialized (timeit (run_body user_input kwargs)).

Definition describe (self : Runner) : string :=
  "TextModelRunner overrides describe(): runs a text pipeline (e.g., sentiment-analysis)."
    ++ nl ++ "Model: " ++ model_id self ++ nl ++ "Task: " ++ task self.

End TextModelRunner.

Module ImageModelRunner.

Definition _preprocess (img : Image) : Image := img.

Definition load_body : M unit :=
  self <- get_self ;;
  LoggingMixin.log
    ("Loading image pipeline: task=" ++ task self ++ ", model=" ++ model_id self) ;;
  p <- call_pipeline (task self) (model_id self) ;;
  set__pipe p ;;
  set__initialized true.

Definition load : M unit := timeit load_body.

Definition run_body (user_input : value) (kwargs : gmap string value)
    : M (gmap string value) :=
  img <- match user_input with
         | VStr path => call_Image_open path
         | VImage img => ret img
         | _ => raise (TypeError
                  "user_input must be a path or PIL.Image.Image for image tasks.")
         end ;;
  let img := _preprocess img in
  top_k <- lift (py_int (default (VInt 5) (kwargs !! "top_k"))) ;;
  LoggingMixin.log
    ("Running image model (top_k=" ++ pretty top_k ++ ") on provided image...") ;;
  results <- call_pipe (VImage img) (Some top_k) ;;
  self <- get_self ;;
  ret (result_dict results self).

Definition run (user_input : value) (kwargs : gmap string value)
    : M (gmap string value) :=
  ensure_initialized (timeit (run_body user_input kwargs)).

Definition describe (self : Runner) : string :=
  "ImageModelRunner overrides describe(): runs an image pipeline (e.g., image-classification)."
    ++ nl ++ "Model: " ++ model_id self ++ nl ++ "Task: " ++ task self.

End ImageModelRunner.

Definition make_text_sentiment_runner : Runner :=
  new_runner TextModelRunner
    "distilbert-base-uncased-finetuned-sst-2-english"
    "sentiment-analysis"
    "Text"
    "Binary sentiment (POSITIVE/NEGATIVE) for short English text.".

Definition make_image_classifier_runner : Runner :=
  new_runner ImageModelRunner
    "google/vit-base-patch16-224"
    "image-classification"
    "Vision"
    "ImageNet-style image classification using ViT base.".

(** ** Method lookup through the class of [self] *)

Definition describe (self : Runner) : string :=
  match cls self with
  | TextModelRunner => TextModelRunner.describe self
  | ImageModelRunner => ImageModelRunner.describe self
  end.

Definition meta (self : Runner) : gmap string string :=
  BaseModelRunner.meta describe self.

Definition load : M unit :=
  self <- get_self ;;
  match cls self with
  | TextModelRunner => TextModelRunner.load
  | ImageModelRunner => ImageModelRunner.load
  end.

Definition run (user_input : value) (kwargs : gmap string value)
    : M (gmap string value) :=
  self <- get_self ;;
  match cls self with
  | TextModelRunner => TextModelRunner.run user_input kwargs
  | ImageModelRunner => ImageModelRunner.run user_input kwargs
  end.

(** ** The public interface, as the presentation shell uses it *)

Inductive call :=
| CallLoad
| CallRun (user_input : value) (kwargs : gmap string value)
| CallMeta
| CallDescribe.

Definition perform (c : call) : M value :=
  match c with
  | CallLoad => load ;; ret VNone
  | CallRun user_input kwargs => d <- run user_input kwargs ;; ret (VDict d)
  | CallMeta => self <- get_self ;; ret (VDict (VStr <$> meta self))
  | CallDescribe => self <- get_self ;; ret (VStr (describe self))
  end.

(** A caller that makes the calls one after the other and goes on after
    a call that raised. *)
Fixpoint perform_all (cs : list call) (env : Env) (self : Runner) (w : World)
    : Runner * World :=
  match cs with
  | [] => (self, w)
  | c :: cs' =>
      match perform c env self w with
      | (_, self', w') => perform_all cs' env self' w'
      end
  end.

Definition world0 : World := {| tick := 0; trace := [] |}.

(** ** gui.py

    The window of the application, as far as its handlers go: the two
    runners, the Tk variables and the contents of the widgets the
    handlers read or write, and the dialogs shown so far.  Strings hold
    UTF-8.  The handlers run on the thread that calls them; the threads
    that [_run_model1_threaded] and [_run_model2_threaded] start are not
    modelled. *)

(** An [ImageTk.PhotoImage]. *)
Record Photo := { photo_id : nat }.

(** A call of [tkinter.messagebox]. *)
Inductive dialog :=
| showinfo (title message : string)
| showwarning (title message : string)
| showerror (title message : string).

(** What the handlers take from Python and Tk without the repository
    saying how it is computed: [str(v)], [format(v, spec)] (a float in
    fixed notation cannot be told from its rational value),
    [json.dumps(d, indent=2)], the file dialog (the empty string when it
    is cancelled) and the making of a preview, [img.thumbnail((520, 300))]
    followed by [ImageTk.PhotoImage(img)]. *)
Record GuiEnv := {
  py_str : value -> string;
  py_format : value -> string -> outcome string;
  json_dumps : gmap string value -> outcome string;
  askopenfilename : nat -> string;
  make_preview : nat -> Image -> outcome Photo;
}.

(** [input_text] and [output_text] are the contents of the two text
    widgets, without the newline Tk keeps at the end; [model_select] is
    the index of the combobox; [input_view] names the container that is
    packed. *)
Record AppGUI := {
  text_runner : Runner;
  image_runner : Runner;
  input_mode : string;
  _selected_image_path : string;
  _preview_photo : option Photo;
  model_select : Z;
  input_text : string;
  output_text : string;
  output_state : string;
  preview_label_text : string;
  preview_label_image : option Photo;
  info_model_name : string;
  info_model_cat : string;
  info_model_desc : string;
  input_view : string;
  dialogs : list dialog;
}.

Definition with_text_runner (x : Runner) (app : AppGUI) : AppGUI :=
  {| text_runner := x; image_runner := image_runner app;
     input_mode := input_mode app;
     _selected_image_path := _selected_image_path app;
     _preview_photo := _preview_photo app; model_select := model_select app;
     input_text := input_text app; output_text := output_text app;
     output_state := output_state app;
     preview_label_text := preview_label_text app;
     preview_label_image := preview_label_image app;
     info_model_name := info_model_name app;
     info_model_cat := info_model_cat app;
     info_model_desc := info_model_desc app; input_view := input_view app;
     dialogs := dialogs app |}.

Definition with_image_runner (x : Runner) (app : AppGUI) : AppGUI :=
  {| text_runner := text_runner app; image_runner := x;
     input_mode := input_mode app;
     _selected_image_path := _selected_image_path app;
     _preview_photo := _preview_photo app; model_select := model_select app;
     input_text := input_text app; output_text := output_text app;
     output_state := output_state app;
     preview_label_text := preview_label_text app;
     preview_label_image := preview_label_image app;
     info_model_name := info_model_name app;
     info_model_cat := info_model_cat app;
     info_model_desc := info_model_desc app; input_view := input_view app;
     dialogs := dialogs app |}.

Definition with_input_mode (x : string) (app : AppGUI) : AppGUI :=
  {| text_runner := text_runner app; image_runner := image_runner app;
     input_mode := x; _selected_image_path := _selected_image_path app;
     _preview_photo := _preview_photo app; model_select := model_select app;
     input_text := input_text app; output_text := output_text app;
     output_state := output_state app;
     preview_label_text := preview_label_text app;
     preview_label_image := preview_label_image app;
     info_model_name := info_model_name app;
     info_model_cat := info_model_cat app;
     info_model_desc := info_model_desc app; input_view := input_view app;
     dialogs := dialogs app |}.

Definition with__selected_image_path (x : string) (app : AppGUI) : AppGUI :=
  {| text_runner := text_runner app; image_runner := image_runner app;
     input_mode := input_mode app; _selected_image_path := x;
     _preview_photo := _preview_photo app; model_select := model_select app;
     input_text := input_text app; output_text := output_text app;
     output_state := output_state app;
     preview_label_text := preview_label_text app;
     preview_label_image := preview_label_image app;
     info_model_name := info_model_name app;
     info_model_cat := info_model_cat app;
     info_model_desc := info_model_desc app; input_view := input_view app;
     dialogs := dialogs app |}.

Definition with__preview_photo (x : option Photo) (app : AppGUI) : AppGUI :=
  {| text_runner := text_runner app; image_runner := image_runner app;
     input_mode := input_mode app;
     _selected_image_path := _selected_image_path app; _preview_photo := x;
     model_select := model_select app; input_text := input_text app;
     output_text := output_text app; output_state := output_state app;
     preview_label_text := preview_label_text app;
     preview_label_image := preview_label_image app;
     info_model_name := info_model_name app;
     info_model_cat := info_model_cat app;
     info_model_desc := info_model_desc app; input_view := input_view app;
     dialogs := dialogs app |}.

Definition with_model_select (x : Z) (app : AppGUI) : AppGUI :=
  {| text_runner := text_runner app; image_runner := image_runner app;
     input_mode := input_mode app;
     _selected_image_path := _selected_image_path app;
     _preview_photo := _preview_photo app; model_select := x;
     input_text := input_text app; output_text := output_text app;
     output_state := output_state app;
     preview_label_text := preview_label_text app;
     preview_label_image := preview_label_image app;
     info_model_name := info_model_name app;
     info_model_cat := info_model_cat app;
     info_model_desc := info_model_desc app; input_view := input_view app;
     dialogs := dialogs app |}.

Definition with_input_text (x : string) (app : AppGUI) : AppGUI :=
  {| text_runner := text_runner app; image_runner := image_runner app;
     input_mode := input_mode app;
     _selected_image_path := _selected_image_path app;
     _preview_photo := _preview_photo app; model_select := model_select app;
     input_text := x; output_text := output_text app;
     output_state := output_state app;
     preview_label_text := preview_label_text app;
     preview_label_image := preview_label_image app;
     info_model_name := info_model_name app;
     info_model_cat := info_model_cat app;
     info_model_desc := info_model_desc app; input_view := input_view app;
     dialogs := dialogs app |}.

Definition with_output_text (x : string) (app : AppGUI) : AppGUI :=
  {| text_runner := text_runner app; image_runner := image_runner app;
     input_mode := input_mode app;
     _selected_image_path := _selected_image_path app;
     _preview_photo := _preview_photo app; model_select := model_select app;
     input_text := input_text app; output_text := x;
     output_state := output_state app;
     preview_label_text := preview_label_text app;
     preview_label_image := preview_label_image app;
     info_model_name := info_model_name app;
     info_model_cat := info_model_cat app;
     info_model_desc := info_model_desc app; input_view := input_view app;
     dialogs := dialogs app |}.

Definition with_output_state (x : string) (app : AppGUI) : AppGUI :=
  {| text_runner := text_runner app; image_runner := image_runner app;
     input_mode := input_mode app;
     _selected_image_path := _selected_image_path app;
     _preview_photo := _preview_photo app; model_select := model_select app;
     input_text := input_text app; output_text := output_text app;
     output_state := x; preview_label_text := preview_label_text app;
     preview_label_image := preview_label_image app;
     info_model_name := info_model_name app;
     info_model_cat := info_model_cat app;
     info_model_desc := info_model_desc app; input_view := input_view app;
     dialogs := dialogs app |}.

Definition with_preview_label_text (x : string) (app : AppGUI) : AppGUI :=
  {| text_runner := text_runner app; image_runner := image_runner app;
     input_mode := input_mode app;
     _selected_image_path := _selected_image_path app;
     _preview_photo := _preview_photo app; model_select := model_select app;
     input_text := input_text app; output_text := output_text app;
     output_state := output_state app; preview_label_text := x;
     preview_label_image := preview_label_image app;
     info_model_name := info_model_name app;
     info_model_cat := info_model_cat app;
     info_model_desc := info_model_desc app; input_view := input_view app;
     dialogs := dialogs app |}.

Definition with_preview_label_image (x : option Photo) (app : AppGUI) : AppGUI :=
  {| text_runner := text_runner app; image_runner := image_runner app;
     input_mode := input_mode app;
     _selected_image_path := _selected_image_path app;
     _preview_photo := _preview_photo app; model_select := model_select app;
     input_text := input_text app; output_text := output_text app;
     output_state := output_state app;
     preview_label_text := preview_label_text app; preview_label_image := x;
     info_model_name := info_model_name app;
     info_model_cat := info_model_cat app;
     info_model_desc := info_model_desc app; input_view := input_view app;
     dialogs := dialogs app |}.

Definition with_info_model_name (x : string) (app : AppGUI) : AppGUI :=
  {| text_runner := text_runner app; image_runner := image_runner app;
     input_mode := input_mode app;
     _selected_image_path := _selected_image_path app;
     _preview_photo := _preview_photo app; model_select := model_select app;
     input_text := input_text app; output_text := output_text app;
     output_state := output_state app;
     preview_label_text := preview_label_text app;
     preview_label_image := preview_label_image app; info_model_name := x;
     info_model_cat := info_model_cat app;
     info_model_desc := info_model_desc app; input_view := input_view app;
     dialogs := dialogs app |}.

Definition with_info_model_cat (x : string) (app : AppGUI) : AppGUI :=
  {| text_runner := text_runner app; image_runner := image_runner app;
     input_mode := input_mode app;
     _selected_image_path := _selected_image_path app;
     _preview_photo := _preview_photo app; model_select := model_select app;
     input_text := input_text app; output_text := output_text app;
     output_state := output_state app;
     preview_label_text := preview_label_text app;
     preview_label_image := preview_label_image app;
     info_model_name := info_model_name app; info_model_cat := x;
     info_model_desc := info_model_desc app; input_view := input_view app;
     dialogs := dialogs app |}.

Definition with_info_model_desc (x : string) (app : AppGUI) : AppGUI :=
  {| text_runner := text_runner app; image_runner := image_runner app;
     input_mode := input_mode app;
     _selected_image_path := _selected_image_path app;
     _preview_photo := _preview_photo app; model_select := model_select app;
     input_text := input_text app; output_text := output_text app;
     output_state := output_state app;
     preview_label_text := preview_label_text app;
     preview_label_image := preview_label_image app;
     info_model_name := info_model_name app;
     info_model_cat := info_model_cat app; info_model_desc := x;
     input_view := input_view app; dialogs := dialogs app |}.

Definition with_input_view (x : string) (app : AppGUI) : AppGUI :=
  {| text_runner := text_runner app; image_runner := image_runner app;
     input_mode := input_mode app;
     _selected_image_path := _selected_image_path app;
     _preview_photo := _preview_photo app; model_select := model_select app;
     input_text := input_text app; output_text := output_text app;
     output_state := output_state app;
     preview_label_text := preview_label_text app;
     preview_label_image := preview_label_image app;
     info_model_name := info_model_name app;
     info_model_cat := info_model_cat app;
     info_model_desc := info_model_desc app; input_view := x;
     dialogs := dialogs app |}.

Definition with_dialogs (x : list dialog) (app : AppGUI) : AppGUI :=
  {| text_runner := text_runner app; image_runner := image_runner app;
     input_mode := input_mode app;
     _selected_image_path := _selected_image_path app;
     _preview_photo := _preview_photo app; model_select := model_select app;
     input_text := input_text app; output_text := output_text app;
     output_state := output_state app;
     preview_label_text := preview_label_text app;
     preview_label_image := preview_label_image app;
     info_model_name := info_model_name app;
     info_model_cat := info_model_cat app;
     info_model_desc := info_model_desc app; input_view := input_view app;
     dialogs := x |}.

(** [str(e)], the text of an exception.  For an exception of the outside
    world, [OtherError cls msg], [msg] stands for that text; all of them
    are taken to derive from [Exception]. *)
Definition exn_str (e : exn) : string :=
  match e with
  | RuntimeError msg | TypeError msg | ValueError msg | OtherError _ msg => msg
  end.

(** *** [str.strip()]

    The white space of Python, in UTF-8: the ASCII characters 9 to 13 and
    28 to 32, U+0085, U+00A0, U+1680, U+2000 to U+200A, U+2028, U+2029,
    U+202F, U+205F and U+3000. *)
Definition second_of_e2_80 (n : nat) : bool :=
  ((128 <=? n)%nat && (n <=? 138)%nat) || (n =? 168)%nat || (n =? 169)%nat
  || (n =? 175)%nat.

Fixpoint str_lstrip (s : string) : string :=
  match s with
  | EmptyString => s
  | String a s1 =>
      if py_isspace a then str_lstrip s1
      else
        match nat_of_ascii a, s1 with
        | 194, String b s2 =>
            if ((nat_of_ascii b =? 133)%nat || (nat_of_ascii b =? 160)%nat)%bool
            then str_lstrip s2 else s
        | 225, String b (String c s3) =>
            if ((nat_of_ascii b =? 154)%nat && (nat_of_ascii c =? 128)%nat)%bool
            then str_lstrip s3 else s
        | 226, String b (String c s3) =>
            if (((nat_of_ascii b =? 128)%nat && second_of_e2_80 (nat_of_ascii c))
                || ((nat_of_ascii b =? 129)%nat && (nat_of_ascii c =? 159)%nat))%bool
            then str_lstrip s3 else s
        | 227, String b (String c s3) =>
            if ((nat_of_ascii b =? 128)%nat && (nat_of_ascii c =? 128)%nat)%bool
            then str_lstrip s3 else s
        | _, _ => s
        end
  end.

(** The same on a reversed string, where the bytes of a character come
    last byte first. *)
Fixpoint str_lstrip_reversed (s : string) : string :=
  match s with
  | EmptyString => s
  | String a s1 =>
      if py_isspace a then str_lstrip_reversed s1
      else
        match s1 with
        | String b s2 =>
            if ((nat_of_ascii b =? 194)%nat
                && ((nat_of_ascii a =? 133)%nat || (nat_of_ascii a =? 160)%nat))%bool
            then str_lstrip_reversed s2
            else
              match s2 with
              | String c s3 =>
                  let na := nat_of_ascii a in
                  let nb := nat_of_ascii b in
                  let nc := nat_of_ascii c in
                  if (((nc =? 225)%nat && (nb =? 154)%nat && (na =? 128)%nat)
                      || ((nc =? 226)%nat && (nb =? 128)%nat && second_of_e2_80 na)
                      || ((nc =? 226)%nat && (nb =? 129)%nat && (na =? 159)%nat)
                      || ((nc =? 227)%nat && (nb =? 128)%nat && (na =? 128)%nat))%bool
                  then str_lstrip_reversed s3 else s
              | EmptyString => s
              end
        | EmptyString => s
        end
  end.

Definition str_strip (s : string) : string :=
  String.rev (str_lstrip_reversed (String.rev (str_lstrip s))).

Module AppGUI_methods.

Definition messagebox (d : dialog) (app : AppGUI) : AppGUI :=
  with_dialogs (dialogs app ++ [d]) app.

(** [self.input_text.get("1.0", tk.END)] *)
Definition input_text_get (app : AppGUI) : string := input_text app ++ nl.

Definition _update_input_view (app : AppGUI) : AppGUI :=
  if String.eqb (input_mode app) "text"
  then with_input_view "text_container" app
  else with_input_view "image_container" app.

Definition _set_output (text : string) (app : AppGUI) : AppGUI :=
  with_output_state "disabled" (with_output_text text (with_output_state "normal" app)).

Definition _clear_io (app : AppGUI) : AppGUI :=
  _set_output EmptyString
    (with__preview_photo None
       (with_preview_label_image None
          (with_preview_label_text "No image selected"
             (with__selected_image_path EmptyString
                (with_input_text EmptyString app))))).

Definition _pick_image (genv : GuiEnv) (env : Env) (app : AppGUI) (w : World)
    : AppGUI * World :=
  let app :=
    if negb (String.eqb (input_mode app) "image")
    then _update_input_view (with_input_mode "image" app) else app in
  let path := askopenfilename genv (tick w) in
  let w := {| tick := S (tick w); trace := trace w |} in
  match path with
  | EmptyString => (app, w)
  | _ =>
      let app := with__selected_image_path path app in
      match Image_open_convert env (tick w) path with
      | Returned img =>
          let w := {| tick := S (tick w); trace := trace w ++ [EvImageOpen path] |} in
          match make_preview genv (tick w) img with
          | Returned photo =>
              (with_preview_label_text EmptyString
                 (with_preview_label_image (Some photo)
                    (with__preview_photo (Some photo) app)),
               {| tick := S (tick w); trace := trace w |})
          | Raised e =>
              (messagebox (showerror "Error" (exn_str e)) app,
               {| tick := S (tick w); trace := trace w |})
          end
      | Raised e =>
          (messagebox (showerror "Error" (exn_str e)) app,
           {| tick := S (tick w); trace := trace w ++ [EvImageOpen path] |})
      end
  end.

Definition _selected_runner (app : AppGUI) : Runner :=
  if (model_select app =? 0)%Z then text_runner app else image_runner app.

Definition _update_selected_model_info (app : AppGUI) : AppGUI :=
  let runner := _selected_runner app in
  let meta := meta runner in
  with_info_model_desc
    ("• Short Description: " ++ default "—" (meta !! "short_description"))
    (with_info_model_cat
       ("• Category (Text, Vision, Audio): " ++ default "—" (meta !! "category"))
       (with_info_model_name
          ("• Model Name: " ++ default "—" (meta !! "name")) app)).

Definition _load_runner (which : string) (env : Env) (app : AppGUI) (w : World)
    : AppGUI * World :=
  if String.eqb which "model1" then
    match load env (text_runner app) w with
    | (Returned _, runner, w') =>
        (messagebox (showinfo "Model" "Model loaded successfully.")
           (with_text_runner runner app), w')
    | (Raised e, runner, w') =>
        (messagebox (showerror "Error" (exn_str e)) (with_text_runner runner app), w')
    end
  else
    match load env (image_runner app) w with
    | (Returned _, runner, w') =>
        (messagebox (showinfo "Model" "Model loaded successfully.")
           (with_image_runner runner app), w')
    | (Raised e, runner, w') =>
        (messagebox (showerror "Error" (exn_str e)) (with_image_runner runner app), w')
    end.

Definition _load_selected_model (env : Env) (app : AppGUI) (w : World)
    : AppGUI * World :=
  _load_runner (if (model_select app =? 0)%Z then "model1" else "model2") env app w.

(** The body shared by the two formatting methods, which differ in the
    words before the label.  Whatever is raised inside [try] leads to
    [json.dumps]. *)
Definition format_top1 (genv : GuiEnv) (first : string)
    (result_dict : gmap string value) : outcome string :=
  let attempt :=
    match default (VList []) (result_dict !! "results") with
    | VList (r :: _) =>
        match r with
        | VDict rd =>
            let label := default (VStr "?") (rd !! "label") in
            let score := default (VFloat 0) (rd !! "score") in
            let rt := default (VFloat 0) (result_dict !! "runtime_s") in
            match py_format genv score ".4f" with
            | Returned fs =>
                match py_format genv rt ".3f" with
                | Returned fr =>
                    Returned (first ++ py_str genv label ++ nl
                                ++ "Score: " ++ fs ++ nl
                                ++ "Runtime: " ++ fr ++ "s")
                | Raised e => Raised e
                end
            | Raised e => Raised e
            end
        | _ =>
            Raised (OtherError "AttributeError"
                      ("'" ++ type_name r ++ "' object has no attribute 'get'"))
        end
    | _ => json_dumps genv result_dict
    end in
  match attempt with
  | Returned text => Returned text
  | Raised _ => json_dumps genv result_dict
  end.

Definition _format_text_result_top1 (genv : GuiEnv)
    (result_dict : gmap string value) : outcome string :=
  format_top1 genv "Label: " result_dict.

Definition _format_image_result_top1 (genv : GuiEnv)
    (result_dict : gmap string value) : outcome string :=
  format_top1 genv "Top-1 Prediction: " result_dict.

Definition _run_model1 (genv : GuiEnv) (env : Env) (app : AppGUI) (w : World)
    : AppGUI * World :=
  if negb (String.eqb (input_mode app) "text") then
    (messagebox (showwarning "Input" "Switch input mode to Text to run Model 1.") app, w)
  else
    match str_strip (input_text_get app) with
    | EmptyString =>
        (messagebox (showwarning "Input" "Please enter some text.") app, w)
    | txt =>
        match run (VStr txt) ∅ env (text_runner app) w with
        | (Returned result, runner, w') =>
            match _format_text_result_top1 genv result with
            | Returned text => (_set_output text (with_text_runner runner app), w')
            | Raised e =>
                (messagebox (showerror "Error" (exn_str e))
                   (with_text_runner runner app), w')
            end
        | (Raised e, runner, w') =>
            (messagebox (showerror "Error" (exn_str e))
               (with_text_runner runner app), w')
        end
    end.

Definition _run_model2 (genv : GuiEnv) (env : Env) (app : AppGUI) (w : World)
    : AppGUI * World :=
  if negb (String.eqb (input_mode app) "image") then
    (messagebox (showwarning "Input" "Switch input mode to Image to run Model 2.") app, w)
  else
    match str_strip (_selected_image_path app) with
    | EmptyString =>
        (messagebox (showwarning "Input" "Please browse and select an image.") app, w)
    | path =>
        match run (VStr path) {[ "top_k" := VInt 1 ]} env (image_runner app) w with
        | (Returned result, runner, w') =>
            match _format_image_result_top1 genv result with
            | Returned text => (_set_output text (with_image_runner runner app), w')
            | Raised e =>
                (messagebox (showerror "Error" (exn_str e))
                   (with_image_runner runner app), w')
            end
        | (Raised e, runner, w') =>
            (messagebox (showerror "Error" (exn_str e))
               (with_image_runner runner app), w')
        end
    end.

(** [AppGUI.__init__], once the widgets are built. *)
Definition __init__ : AppGUI :=
  _update_input_view
    (_update_selected_model_info
       {| text_runner := make_text_sentiment_runner;
          image_runner := make_image_classifier_runner;
          input_mode := "text";
          _selected_image_path := EmptyString;
          _preview_photo := None;
          model_select := 0;
          input_text := EmptyString;
          output_text := EmptyString;
          output_state := "normal";
          preview_label_text := "No image selected";
          preview_label_image := None;
          info_model_name := "• Model Name: —";
          info_model_cat := "• Category (Text, Vision, Audio): —";
          info_model_desc := "• Short Description: —";
          input_view := EmptyString;
          dialogs := [] |}).

End AppGUI_methods.

(** ** Concrete environments *)

Definition score (label : string) (s : Q) : value :=
  VDict {[ "label" := VStr label; "score" := VFloat s ]}.

Definition labels_demo : list value :=
  [score "tabby" (6 # 10); score "tiger cat" (3 # 10); score "lynx" (1 # 10)].

(** A pipeline that answers a string or a list of strings with one
    score, and an image with its best [top_k] labels (5 when no [top_k]
    is given). *)
Definition pipe_demo : Pipe :=
  {| pipe_call := fun _ input top_k =>
       match input with
       | VStr _ | VList _ => Returned (VList [score "POSITIVE" (99 # 100)])
       | VImage _ =>
           Returned (VList (take (Z.to_nat (default 5%Z top_k)) labels_demo))
       | _ => Raised (ValueError "unsupported input")
       end |}.

(** A clock given by its reading at each moment; it stays at the last
    reading afterwards. *)
Definition clock (readings : list Q) : nat -> Q :=
  fun n => nth n readings (List.last readings 0%Q).

Definition env_with_clock (readings : list Q) : Env :=
  {| time_time := clock readings;
     pipeline := fun _ _ _ => Returned pipe_demo;
     Image_open_convert := fun _ path =>
       Returned {| image_class := "PngImageFile"; image_id := String.length path |} |}.

(** Loading takes three seconds, the run after it one second. *)
Definition env_demo : Env := env_with_clock [10; 10; 13; 20; 20; 21]%Q.

(** The clock is set back by two seconds during the run. *)
Definition env_clock_set_back : Env := env_with_clock [10; 10; 13; 20; 20; 19]%Q.

(** The hub cannot be reached. *)
Definition env_offline : Env :=
  {| time_time := clock [10; 10; 11]%Q;
     pipeline := fun _ _ _ => Raised (OtherError "OSError" "cannot reach the hub");
     Image_open_convert := fun _ _ =>
       Raised (OtherError "FileNotFoundError" "no such file") |}.

(** ** Vocabulary of the statements *)

(** The method under the decorators of [run], in the class of [self]. *)
Definition run_body (user_input : value) (kwargs : gmap string value)
    : M (gmap string value) :=
  self <- get_self ;;
  match cls self with
  | TextModelRunner => TextModelRunner.run_body user_input kwargs
  | ImageModelRunner => ImageModelRunner.run_body user_input kwargs
  end.

(** The events that happened between the worlds [w] and [w']. *)
Definition new_events (w w' : World) : list event :=
  drop (length (trace w)) (trace w').

(** This invocation of [run] assigned [last_runtime_s], and the value it
    left there is not negative. *)
Definition records_timing (env : Env) (self : Runner) (w : World)
    (user_input : value) (kwargs : gmap string value) : Prop :=
  EvSetAttr "last_runtime_s" ∈ new_events w (run user_input kwargs env self w).2 /\
  (0 <= last_runtime_s (run user_input kwargs env self w).1.2)%Q.

Definition raises_TypeError {A} (o : outcome A) : Prop :=
  exists msg, o = Raised (TypeError msg).

(** No pipeline was called between [w] and [w']. *)
Definition no_pipe_call (w w' : World) : Prop :=
  forall input top_k, EvPipeCall input top_k ∉ new_events w w'.

(** What the provider promises of an image-classification pipeline over
    [nlabels] labels: called on an image with [top_k=k], it returns a
    list of [k] labeled scores, or of all [nlabels] when [k] is larger. *)
Definition returns_top_k (p : Pipe) (nlabels : nat) : Prop :=
  forall n img k,
    exists l, pipe_call p n (VImage img) (Some k) = Returned (VList l) /\
              length l = Nat.min (Z.to_nat k) nlabels.

(** [preserves P m]: when [P] holds of the runner before [m], it holds
    after, whether [m] returns or raises. *)
Definition preserves {A} (P : Runner -> Prop) (m : M A) : Prop :=
  forall env self w, P self -> P (m env self w).1.2.

(** [P] does not look at the attributes that [load] and [run] assign. *)
Record stable (P : Runner -> Prop) : Prop := {
  stable_last_runtime_s : forall q self, P self -> P (with_last_runtime_s q self);
  stable__pipe : forall p self, P self -> P (with__pipe (Some p) self);
  stable__initialized : forall self, P self -> P (with__initialized true self);
}.

(** The world after [log message]. *)
Definition logged (message : string) (self : Runner) (w : World) : World :=
  {| tick := tick w;
     trace :=
       if default true (_logger_enabled self)
       then trace w ++ [EvPrint ("[LOG] " ++ class_name (cls self) ++ ": " ++ message)]
       else trace w |}.

(** The last two steps of both [run] methods: the call of the pipeline
    and the wrapping of what it returns. *)
Definition classify (input : value) (top_k : option Z) (self : Runner) (w : World)
    : outcome (gmap string value) * Runner * World :=
  match _pipe self with
  | None => (Raised (TypeError "'NoneType' object is not callable"), self, w)
  | Some p =>
      (match pipe_call p (tick w) input top_k with
       | Returned results => Returned (result_dict results self)
       | Raised e => Raised e
       end,
       self,
       {| tick := S (tick w); trace := trace w ++ [EvPipeCall input top_k] |})
  end.

(** The first step of the image runner: a path is opened, an image is
    taken as it is, anything else is refused. *)
Definition as_image (user_input : value) (env : Env) (w : World)
    : outcome Image * World :=
  match user_input with
  | VStr path =>
      (Image_open_convert env (tick w) path,
       {| tick := S (tick w); trace := trace w ++ [EvImageOpen path] |})
  | VImage img => (Returned img, w)
  | _ =>
      (Raised (TypeError "user_input must be a path or PIL.Image.Image for image tasks."),
       w)
  end.

(** ** Reading a trace *)

(** The pipeline calls among some events, in order. *)
Definition pipe_calls (evs : list event) : list (value * option Z) :=
  omap (fun ev => match ev with
                  | EvPipeCall input top_k => Some (input, top_k)
                  | _ => None
                  end) evs.

(** The requests to the hub, as pairs of task and model. *)
Definition hub_requests (evs : list event) : list (string * string) :=
  omap (fun ev => match ev with
                  | EvPipeline task model => Some (task, model)
                  | _ => None
                  end) evs.

(** The paths handed to the image decoder. *)
Definition opened_paths (evs : list event) : list string :=
  omap (fun ev => match ev with EvImageOpen path => Some path | _ => None end) evs.

(** The lines printed. *)
Definition printed (evs : list event) : list string :=
  omap (fun ev => match ev with EvPrint line => Some line | _ => None end) evs.

(** The readings of the clock. *)
Definition clock_readings (evs : list event) : list Q :=
  omap (fun ev => match ev with EvTime t => Some t | _ => None end) evs.

(** The names of the attributes assigned. *)
Definition assigned (evs : list event) : list string :=
  omap (fun ev => match ev with EvSetAttr name => Some name | _ => None end) evs.

(** What [log message] adds to the trace. *)
Definition log_events (message : string) (self : Runner) : list event :=
  if default true (_logger_enabled self)
  then [EvPrint ("[LOG] " ++ class_name (cls self) ++ ": " ++ message)]
  else [].

(** The message [load] logs, in the class of [self]. *)
Definition load_message (self : Runner) : string :=
  match cls self with
  | TextModelRunner =>
      "Loading text pipeline: task=" ++ task self ++ ", model=" ++ model_id self
  | ImageModelRunner =>
      "Loading image pipeline: task=" ++ task self ++ ", model=" ++ model_id self
  end.

(** Two runners that differ at most in [last_runtime_s]. *)
Definition same_but_runtime (self self' : Runner) : Prop :=
  cls self' = cls self /\
  model_id self' = model_id self /\
  task self' = task self /\
  category self' = category self /\
  short_description self' = short_description self /\
  _initialized self' = _initialized self /\
  _pipe self' = _pipe self /\
  _logger_enabled self' = _logger_enabled self.

(** The flag is only set on a runner that holds a pipeline. *)
Definition flag_implies_pipe (self : Runner) : Prop :=
  _initialized self = true -> is_Some (_pipe self).

(** The model loads, but the image file does not exist. *)
Definition env_missing_file : Env :=
  {| time_time := clock [10; 10; 13; 20; 20; 21]%Q;
     pipeline := fun _ _ _ => Returned pipe_demo;
     Image_open_convert := fun _ _ =>
       Raised (OtherError "FileNotFoundError" "No such file or directory") |}.

(** The assignment [runner._logger_enabled = b], which [LoggingMixin.log]
    looks for. *)
Definition with__logger_enabled (b : bool) (self : Runner) : Runner :=
  {| cls := cls self; model_id := model_id self; task := task self;
     category := category self; short_description := short_description self;
     _initialized := _initialized self; _pipe := _pipe self;
     last_runtime_s := last_runtime_s self; _logger_enabled := Some b |}.

(** A number in fixed notation with [digits] decimals, rounded half to
    even; it stands for [format(q, ".4f")] and [format(q, ".3f")] in the
    concrete environment below. *)
Fixpoint zeros (n : nat) : string :=
  match n with
  | O => EmptyString
  | S n' => "0" ++ zeros n'
  end.

Definition pad_zeros (width : nat) (s : string) : string :=
  zeros (width - String.length s) ++ s.

Definition format_fixed (digits : nat) (q : Q) : string :=
  let scale := (10 ^ Z.of_nat digits)%Z in
  let den := Zpos (Qden q) in
  let scaled := (Z.abs (Qnum q) * scale)%Z in
  let whole := (scaled / den)%Z in
  let rest := (scaled mod den)%Z in
  let rounded :=
    if (den <? 2 * rest)%Z then (whole + 1)%Z
    else if ((den =? 2 * rest)%Z && Z.odd whole)%bool then (whole + 1)%Z
    else whole in
  (if (Qnum q <? 0)%Z then "-" else EmptyString)
    ++ pretty (rounded / scale)%Z ++ "."
    ++ pad_zeros digits (pretty (rounded mod scale)%Z).

Definition genv_demo : GuiEnv :=
  {| py_str := fun v => match v with VStr s => s | _ => "<object>" end;
     py_format := fun v spec =>
       match v with
       | VFloat q =>
           if String.eqb spec ".4f" then Returned (format_fixed 4 q)
           else if String.eqb spec ".3f" then Returned (format_fixed 3 q)
           else Raised (ValueError "Invalid format specifier")
       | _ => Raised (TypeError "unsupported format string")
       end;
     json_dumps := fun _ => Returned "{}";
     askopenfilename := fun _ => "cat.png";
     make_preview := fun n _ => Returned {| photo_id := n |} |}.

(** The file dialog is cancelled. *)
Definition genv_cancel : GuiEnv :=
  {| py_str := py_str genv_demo; py_format := py_format genv_demo;
     json_dumps := json_dumps genv_demo;
     askopenfilename := fun _ => EmptyString;
     make_preview := make_preview genv_demo |}.

(** The handlers of the window, and the call of one of them. *)
Inductive handler :=
| Handler_load_runner (which : string)
| Handler_load_selected_model
| Handler_run_model1
| Handler_run_model2
| Handler_clear_io
| Handler_pick_image
| Handler_update_selected_model_info
| Handler_update_input_view.

Definition handle (h : handler) (genv : GuiEnv) (env : Env)
    (app : AppGUI) (w : World) : AppGUI * World :=
  match h with
  | Handler_load_runner which => AppGUI_methods._load_runner which env app w
  | Handler_load_selected_model => AppGUI_methods._load_selected_model env app w
  | Handler_run_model1 => AppGUI_methods._run_model1 genv env app w
  | Handler_run_model2 => AppGUI_methods._run_model2 genv env app w
  | Handler_clear_io => (AppGUI_methods._clear_io app, w)
  | Handler_pick_image => AppGUI_methods._pick_image genv env app w
  | Handler_update_selected_model_info =>
      (AppGUI_methods._update_selected_model_info app, w)
  | Handler_update_input_view => (AppGUI_methods._update_input_view app, w)
  end.

(** The configuration of a runner: what the factory gave it. *)
Definition same_config (self self' : Runner) : Prop :=
  cls self' = cls self /\
  model_id self' = model_id self /\
  task self' = task self /\
  category self' = category self /\
  short_description self' = short_description self.

(** The first entry of the results of a mapping returned by [run], when
    the results are a list that starts with a mapping. *)
Definition top_entry (result_dict : gmap string value) : option (gmap string value) :=
  match default (VList []) (result_dict !! "results") with
  | VList (VDict rd :: _) => Some rd
  | _ => None
  end.

(** What a runner keeps of its configuration and of its loaded state:
    [self'] has the configuration of [self], and is loaded if [self] is. *)
Definition keeps_runner (self self' : Runner) : Prop :=
  same_config self self' /\
  (_initialized self = true -> _initialized self' = true).

(** * Properties *)

(** ** What a computation leaves alone *)

Section Preserves.
Context (P : Runner -> Prop).

Lemma preserves_ret {A} (a : A) : preserves P (ret a).
Proof. by intros env self w HP. Qed.

Lemma preserves_raise {A} (e : exn) : preserves P (@raise A e).
Proof. by intros env self w HP. Qed.

Lemma preserves_lift {A} (o : outcome A) : preserves P (lift o).
Proof. by intros env self w HP. Qed.

Lemma preserves_emit (ev : event) : preserves P (emit ev).
Proof. by intros env self w HP. Qed.

Lemma preserves_ask {A} (f : Env -> nat -> A) : preserves P (ask f).
Proof. by intros env self w HP. Qed.

Lemma preserves_bind {A B} (m : M A) (k : A -> M B) :
  preserves P m -> (forall a, preserves P (k a)) -> preserves P (bind m k).
Proof.
  intros Hm Hk env self w HP. unfold bind.
  specialize (Hm env self w HP).
  destruct (m env self w) as [[[a|e] self1] w1]; simpl in *; [|done].
  by apply Hk.
Qed.

(** Reading [self] gives a runner of which [P] holds. *)
Lemma preserves_get_self {B} (k : Runner -> M B) :
  (forall self, P self -> preserves P (k self)) ->
  preserves P (bind get_self k).
Proof. intros Hk env self w HP. unfold bind, get_self. by apply Hk. Qed.

Lemma preserves_try_finally {A} (body : M A) (fin : M unit) :
  preserves P body -> preserves P fin -> preserves P (try_finally body fin).
Proof.
  intros Hb Hf env self w HP. unfold try_finally.
  specialize (Hb env self w HP).
  destruct (body env self w) as [[res self1] w1]; simpl in *.
  specialize (Hf env self1 w1 Hb).
  by destruct (fin env self1 w1) as [[[[]|e] self2] w2].
Qed.

Lemma preserves_set_attr (name : string) (update : Runner -> Runner) :
  (forall self, P self -> P (update self)) ->
  preserves P (set_attr name update).
Proof. intros Hu env self w HP. by apply Hu. Qed.

End Preserves.

Ltac preserve_step :=
  lazymatch goal with
  | |- preserves _ (bind get_self _) => apply preserves_get_self; intros ? ?
  | |- preserves _ (bind _ _) => apply preserves_bind; [|intros ?]
  | |- preserves _ (try_finally _ _) => apply preserves_try_finally
  | |- preserves _ (ret _) => apply preserves_ret
  | |- preserves _ (raise _) => apply preserves_raise
  | |- preserves _ (lift _) => apply preserves_lift
  | |- preserves _ (emit _) => apply preserves_emit
  | |- preserves _ (ask _) => apply preserves_ask
  | |- preserves _ (set_attr _ _) =>
      apply preserves_set_attr; intros ? ?;
      first [ by apply stable_last_runtime_s | by apply stable__pipe
            | by apply stable__initialized ]
  | |- preserves _ (match ?x with _ => _ end) => destruct x
  | |- preserves _ py_time => unfold py_time
  | |- preserves _ (py_print _) => unfold py_print
  | |- preserves _ (call_pipeline _ _) => unfold call_pipeline
  | |- preserves _ (call_Image_open _) => unfold call_Image_open
  | |- preserves _ (set_last_runtime_s _) => unfold set_last_runtime_s
  | |- preserves _ (set__pipe _) => unfold set__pipe
  | |- preserves _ (set__initialized _) => unfold set__initialized
  end.

Ltac preserve := repeat preserve_step.

Section Stable.
Context (P : Runner -> Prop) (HP : stable P).

Lemma preserves_log (message : string) : preserves P (LoggingMixin.log message).
Proof. unfold LoggingMixin.log. preserve. Qed.

Lemma preserves_call_pipe (input : value) (top_k : option Z) :
  preserves P (call_pipe input top_k).
Proof. unfold call_pipe. preserve. Qed.

Lemma preserves_timeit {A} (fn : M A) : preserves P fn -> preserves P (timeit fn).
Proof. intros Hfn. unfold timeit. preserve. done. Qed.

Lemma preserves_ensure_initialized {A} (fn : M A) :
  preserves P fn -> preserves P (ensure_initialized fn).
Proof. intros Hfn. unfold ensure_initialized. preserve. done. Qed.

Lemma preserves_load : preserves P load.
Proof.
  unfold load. preserve; apply preserves_timeit;
    unfold TextModelRunner.load_body, ImageModelRunner.load_body;
    preserve; apply preserves_log.
Qed.

Lemma preserves_run (user_input : value) (kwargs : gmap string value) :
  preserves P (run user_input kwargs).
Proof.
  unfold run. preserve;
    apply preserves_ensure_initialized, preserves_timeit;
    unfold TextModelRunner.run_body, ImageModelRunner.run_body;
    preserve; apply preserves_log || apply preserves_call_pipe.
Qed.

Lemma preserves_perform (c : call) : preserves P (perform c).
Proof.
  destruct c; simpl; preserve; apply preserves_load || apply preserves_run.
Qed.

Lemma preserves_perform_all (cs : list call) env self w :
  P self -> P (perform_all cs env self w).1.
Proof.
  revert self w. induction cs as [|c cs IH]; intros self w Hself; [done|].
  simpl. pose proof (preserves_perform c env self w Hself) as Hc.
  destruct (perform c env self w) as [[res self1] w1]. by apply IH.
Qed.

End Stable.

(** ** The decorators *)

(** What [timeit] does around [fn]: one clock reading before, [fn]
    itself, one clock reading after, and the assignment of the
    difference; the outcome is the outcome of [fn]. *)
Lemma timeit_eq {A} (fn : M A) env self w :
  timeit fn env self w =
    let t0 := time_time env (tick w) in
    let '(res, self1, w1) :=
      fn env self {| tick := S (tick w); trace := trace w ++ [EvTime t0] |} in
    let t1 := time_time env (tick w1) in
    (res, with_last_runtime_s (t1 - t0) self1,
     {| tick := S (tick w1);
        trace := (trace w1 ++ [EvTime t1]) ++ [EvSetAttr "last_runtime_s"] |}).
Proof.
  unfold timeit, try_finally, bind, py_time, ask, emit, ret; simpl.
  by destruct (fn env self _) as [[res self1] w1].
Qed.

Lemma ensure_initialized_false {A} (fn : M A) env self w :
  _initialized self = false ->
  ensure_initialized fn env self w =
    (Raised (RuntimeError "Model is not initialized. Call `load()` first."), self, w).
Proof. intros H. unfold ensure_initialized, bind, get_self. by rewrite H. Qed.

Lemma ensure_initialized_true {A} (fn : M A) env self w :
  _initialized self = true ->
  ensure_initialized fn env self w = fn env self w.
Proof. intros H. unfold ensure_initialized, bind, get_self. by rewrite H. Qed.

Lemma run_eq user_input kwargs env self w :
  run user_input kwargs env self w =
    match cls self with
    | TextModelRunner => TextModelRunner.run user_input kwargs env self w
    | ImageModelRunner => ImageModelRunner.run user_input kwargs env self w
    end.
Proof. unfold run, bind, get_self. by destruct (cls self). Qed.

Lemma load_eq env self w :
  load env self w =
    match cls self with
    | TextModelRunner => TextModelRunner.load env self w
    | ImageModelRunner => ImageModelRunner.load env self w
    end.
Proof. unfold load, bind, get_self. by destruct (cls self). Qed.

Lemma run_uninitialized_eq user_input kwargs env self w :
  _initialized self = false ->
  run user_input kwargs env self w =
    (Raised (RuntimeError "Model is not initialized. Call `load()` first."),
     self, w).
Proof.
  intros Hinit. rewrite run_eq.
  destruct (cls self);
    unfold TextModelRunner.run, ImageModelRunner.run;
    by apply ensure_initialized_false.
Qed.

(** ** Calling [run] before [load] *)

(** C1: on a runner of either class whose initialization flag is not set,
    [run] raises the RuntimeError of the guard for every input and every
    option set; the runner and the world are left as they were, and the
    guard does not depend on the method it wraps, which is never entered. *)
Theorem run_before_load_raises (env : Env) (self : Runner) (w : World)
    (user_input : value) (kwargs : gmap string value) :
  _initialized self = false ->
  run user_input kwargs env self w =
    (Raised (RuntimeError "Model is not initialized. Call `load()` first."),
     self, w)
  /\ forall (A : Type) (fn : M A),
       ensure_initialized fn env self w =
         (Raised (RuntimeError "Model is not initialized. Call `load()` first."),
          self, w).
Proof.
  intros Hinit. split.
  - by apply run_uninitialized_eq.
  - intros A fn. by apply ensure_initialized_false.
Qed.

Lemma run_before_load_raises_witness :
  _initialized make_image_classifier_runner = false /\
  run (VInt 7) {[ "top_k" := VInt 1 ]} env_demo make_image_classifier_runner world0 =
    (Raised (RuntimeError "Model is not initialized. Call `load()` first."),
     make_image_classifier_runner, world0).
Proof.
  split; [reflexivity|].
  apply (run_before_load_raises env_demo make_image_classifier_runner world0
           (VInt 7) {[ "top_k" := VInt 1 ]}).
  reflexivity.
Defined.

(** ** What the methods compute *)

Lemma log_eq (message : string) env self w :
  LoggingMixin.log message env self w =
    (Returned tt, self,
     {| tick := tick w;
        trace :=
          if default true (_logger_enabled self)
          then trace w ++ [EvPrint ("[LOG] " ++ class_name (cls self) ++ ": " ++ message)]
          else trace w |}).
Proof.
  unfold LoggingMixin.log, bind, get_self.
  destruct (default true (_logger_enabled self)); [done|].
  by destruct w.
Qed.

(** [load] raises exactly when the construction of the pipeline does, and
    then assigns nothing but the elapsed time. *)
Lemma load_outcome env self w :
  match pipeline env (S (tick w)) (task self) (model_id self) with
  | Returned p =>
      exists q w',
        load env self w =
          (Returned tt,
           with_last_runtime_s q (with__initialized true (with__pipe (Some p) self)),
           w')
  | Raised e =>
      exists q w', load env self w = (Raised e, with_last_runtime_s q self, w')
  end.
Proof.
  rewrite load_eq.
  destruct (cls self);
    unfold TextModelRunner.load, ImageModelRunner.load;
    rewrite timeit_eq;
    unfold TextModelRunner.load_body, ImageModelRunner.load_body, bind, get_self;
    rewrite log_eq;
    unfold call_pipeline, bind, emit, ask, lift; simpl;
    destruct (pipeline env (S (tick w)) (task self) (model_id self));
    simpl; eauto.
Qed.

Lemma meta_name (self : Runner) : meta self !! "name" = Some (model_id self).
Proof. reflexivity. Qed.

Lemma meta_category (self : Runner) : meta self !! "category" = Some (category self).
Proof. reflexivity. Qed.

Lemma meta_description (self : Runner) :
  meta self !! "short_description"
    = Some (str_or (short_description self) (describe self)).
Proof. reflexivity. Qed.

Lemma result_dict_results results self :
  result_dict results self !! "results" = Some results.
Proof. reflexivity. Qed.

Lemma result_dict_runtime_s results self :
  result_dict results self !! "runtime_s" = Some (VFloat (last_runtime_s self)).
Proof. reflexivity. Qed.

Lemma result_dict_model results self :
  result_dict results self !! "model" = Some (VStr (model_id self)).
Proof. reflexivity. Qed.

Lemma result_dict_task results self :
  result_dict results self !! "task" = Some (VStr (task self)).
Proof. reflexivity. Qed.

(** ** The life cycle *)

Lemma stable_initialized : stable (fun self => _initialized self = true).
Proof. by split. Qed.

(** C2: when [load] returns, the initialization flag is true, and it is
    still true after any further sequence of [load], [run], [meta] and
    [describe] calls, whatever the outside world answers and whether the
    calls return or raise. *)
Theorem loaded_stays_loaded (env : Env) (self : Runner) (w : World)
    (self1 : Runner) (w1 : World) :
  load env self w = (Returned tt, self1, w1) ->
  _initialized self1 = true /\
  forall (cs : list call) (env' : Env) (w' : World),
    _initialized (perform_all cs env' self1 w').1 = true.
Proof.
  intros Hload.
  assert (_initialized self1 = true) as Hinit.
  { pose proof (load_outcome env self w) as H.
    destruct (pipeline env (S (tick w)) (task self) (model_id self)) as [p|e];
      destruct H as (q & w' & H); rewrite H in Hload; by simplify_eq. }
  split; [done|]. intros cs env' w'.
  by apply (preserves_perform_all _ stable_initialized).
Qed.

Lemma loaded_stays_loaded_witness :
  _initialized (load env_demo make_text_sentiment_runner world0).1.2 = true /\
  forall (cs : list call) (env' : Env) (w' : World),
    _initialized
      (perform_all cs env' (load env_demo make_text_sentiment_runner world0).1.2 w').1
      = true.
Proof.
  apply (loaded_stays_loaded env_demo make_text_sentiment_runner world0 _
           (load env_demo make_text_sentiment_runner world0).2).
  vm_compute. reflexivity.
Defined.

(** C8: when [load] raises on an unloaded runner, the exception is the
    one raised by the construction of the pipeline, the initialization
    flag is still false and the pipeline reference is still [None]. *)
Theorem load_failure_stays_unloaded (env : Env) (self : Runner) (w : World)
    (e : exn) (self' : Runner) (w' : World) :
  _initialized self = false ->
  _pipe self = None ->
  load env self w = (Raised e, self', w') ->
  pipeline env (S (tick w)) (task self) (model_id self) = Raised e /\
  _initialized self' = false /\
  _pipe self' = None.
Proof.
  intros Hinit Hpipe Hload.
  pose proof (load_outcome env self w) as H.
  destruct (pipeline env (S (tick w)) (task self) (model_id self)) as [p|e0];
    destruct H as (q & w0 & H); rewrite H in Hload; simplify_eq.
  by rewrite <- Hinit, <- Hpipe.
Qed.

(** The other direction: a failing construction makes [load] raise. *)
Lemma load_raises_when_pipeline_does (env : Env) (self : Runner) (w : World) (e : exn) :
  pipeline env (S (tick w)) (task self) (model_id self) = Raised e ->
  (load env self w).1.1 = Raised e.
Proof.
  intros Hp. pose proof (load_outcome env self w) as H. rewrite Hp in H.
  destruct H as (q & w' & ->). done.
Qed.

Lemma load_failure_stays_unloaded_witness :
  pipeline env_offline 1 "image-classification" "google/vit-base-patch16-224"
    = Raised (OtherError "OSError" "cannot reach the hub") /\
  _initialized (load env_offline make_image_classifier_runner world0).1.2 = false /\
  _pipe (load env_offline make_image_classifier_runner world0).1.2 = None.
Proof.
  apply (load_failure_stays_unloaded env_offline make_image_classifier_runner
           world0 _ _ (load env_offline make_image_classifier_runner world0).2).
  - reflexivity.
  - reflexivity.
  - vm_compute. reflexivity.
Defined.

(** ** Metadata *)

Lemma stable_metadata (name cat : string) :
  stable (fun self => model_id self = name /\ category self = cat).
Proof. by split. Qed.

(** C7: [meta] returns without looking at the initialization flag and
    leaves the runner and the world as they are; its name and category
    entries are the model identifier and the category, and they are the
    same after [load] (returning or raising) and after any sequence of
    calls of the public interface. *)
Theorem meta_independent_of_load (env : Env) (self : Runner) (w : World) :
  perform CallMeta env self w = (Returned (VDict (VStr <$> meta self)), self, w) /\
  meta self !! "name" = Some (model_id self) /\
  meta self !! "category" = Some (category self) /\
  meta (load env self w).1.2 !! "name" = meta self !! "name" /\
  meta (load env self w).1.2 !! "category" = meta self !! "category" /\
  forall (cs : list call),
    meta (perform_all cs env self w).1 !! "name" = meta self !! "name" /\
    meta (perform_all cs env self w).1 !! "category" = meta self !! "category".
Proof.
  split; [done|]. split; [done|]. split; [done|].
  rewrite !meta_name, !meta_category.
  destruct (preserves_load _ (stable_metadata (model_id self) (category self))
              env self w (conj eq_refl eq_refl)) as [-> ->].
  split; [done|]. split; [done|]. intros cs.
  rewrite !meta_name, !meta_category.
  by destruct (preserves_perform_all _
                 (stable_metadata (model_id self) (category self))
                 cs env self w (conj eq_refl eq_refl)) as [-> ->].
Qed.

(** C10: the description entry of [meta] is [describe ()] of the runner's
    own class when the [short_description] field is the empty string, and
    the field itself otherwise. *)
Theorem meta_short_description (self : Runner) :
  (short_description self = EmptyString ->
   meta self !! "short_description" = Some (describe self)) /\
  (short_description self <> EmptyString ->
   meta self !! "short_description" = Some (short_description self)).
Proof.
  rewrite meta_description. split; intros H.
  - by rewrite H.
  - by destruct (short_description self).
Qed.

Lemma meta_short_description_witness :
  meta (new_runner TextModelRunner "m" "t" "Text" EmptyString) !! "short_description"
    = Some (describe (new_runner TextModelRunner "m" "t" "Text" EmptyString)) /\
  meta make_image_classifier_runner !! "short_description"
    = Some "ImageNet-style image classification using ViT base.".
Proof.
  split.
  - apply (meta_short_description (new_runner TextModelRunner "m" "t" "Text" EmptyString)).
    reflexivity.
  - apply (meta_short_description make_image_classifier_runner).
    discriminate.
Defined.

(** ** What [run] computes *)

Lemma call_pipe_eq input top_k env self w :
  call_pipe input top_k env self w =
    match _pipe self with
    | None => (Raised (TypeError "'NoneType' object is not callable"), self, w)
    | Some p =>
        (pipe_call p (tick w) input top_k, self,
         {| tick := S (tick w); trace := trace w ++ [EvPipeCall input top_k] |})
    end.
Proof.
  unfold call_pipe, bind, get_self.
  destruct (_pipe self) as [p|]; [|done].
  unfold emit, ask, lift. simpl. by destruct (pipe_call p (tick w) input top_k).
Qed.

Lemma text_run_body_eq user_input kwargs env self w :
  TextModelRunner.run_body user_input kwargs env self w =
    match py_len user_input with
    | Raised e => (Raised e, self, w)
    | Returned n =>
        classify user_input None self
          (logged ("Running text model on input length=" ++ pretty n) self w)
    end.
Proof.
  unfold TextModelRunner.run_body, bind, lift, classify.
  destruct (py_len user_input) as [n|e]; [|done].
  rewrite log_eq. fold (logged ("Running text model on input length=" ++ pretty n) self w).
  rewrite call_pipe_eq.
  destruct (_pipe self) as [p|]; [|done].
  by destruct (pipe_call p _ _ _).
Qed.

Lemma image_run_body_eq user_input kwargs env self w :
  ImageModelRunner.run_body user_input kwargs env self w =
    match as_image user_input env w with
    | (Raised e, w1) => (Raised e, self, w1)
    | (Returned img, w1) =>
        match py_int (default (VInt 5) (kwargs !! "top_k")) with
        | Raised e => (Raised e, self, w1)
        | Returned top_k =>
            classify (VImage img) (Some top_k) self
              (logged ("Running image model (top_k=" ++ pretty top_k
                         ++ ") on provided image...") self w1)
        end
    end.
Proof.
  assert (forall img w1,
    (let img := ImageModelRunner._preprocess img in
     top_k <- lift (py_int (default (VInt 5) (kwargs !! "top_k"))) ;;
     LoggingMixin.log
       ("Running image model (top_k=" ++ pretty top_k ++ ") on provided image...") ;;
     results <- call_pipe (VImage img) (Some top_k) ;;
     self <- get_self ;;
     ret (result_dict results self)) env self w1 =
    match py_int (default (VInt 5) (kwargs !! "top_k")) with
    | Raised e => (Raised e, self, w1)
    | Returned top_k =>
        classify (VImage img) (Some top_k) self
          (logged ("Running image model (top_k=" ++ pretty top_k
                     ++ ") on provided image...") self w1)
    end) as Hrest.
  { intros img w1. unfold ImageModelRunner._preprocess, bind, lift, classify.
    destruct (py_int _) as [top_k|e]; [|done].
    rewrite log_eq.
    fold (logged ("Running image model (top_k=" ++ pretty top_k
                    ++ ") on provided image...") self w1).
    rewrite call_pipe_eq.
    destruct (_pipe self) as [p|]; [|done].
    by destruct (pipe_call p _ _ _). }
  unfold ImageModelRunner.run_body, as_image.
  destruct user_input as [| | | |path|img| |]; try done.
  - specialize (fun img => Hrest img
        {| tick := S (tick w); trace := trace w ++ [EvImageOpen path] |}).
    unfold call_Image_open, bind, emit, ask, lift in *. simpl.
    destruct (Image_open_convert env (tick w) path) as [img|e]; [|done].
    exact (Hrest img).
  - exact (Hrest img w).
Qed.

Lemma run_body_eq user_input kwargs env self w :
  run_body user_input kwargs env self w =
    match cls self with
    | TextModelRunner => TextModelRunner.run_body user_input kwargs env self w
    | ImageModelRunner => ImageModelRunner.run_body user_input kwargs env self w
    end.
Proof. unfold run_body, bind, get_self. by destruct (cls self). Qed.

(** With the flag set, [run] is [timeit] around the method of the class. *)
Lemma run_initialized_eq user_input kwargs env self w :
  _initialized self = true ->
  run user_input kwargs env self w = timeit (run_body user_input kwargs) env self w.
Proof.
  intros Hinit. rewrite run_eq, !timeit_eq. simpl. rewrite run_body_eq.
  destruct (cls self);
    unfold TextModelRunner.run, ImageModelRunner.run;
    by rewrite ensure_initialized_true, timeit_eq.
Qed.

(** Membership of an event in a trace given by its parts. *)
Ltac events :=
  repeat first
    [ rewrite elem_of_app | rewrite elem_of_cons | rewrite elem_of_nil
    | rewrite list_elem_of_singleton ];
  first [ tauto | intuition discriminate ].

Lemma new_events_app (w w' : World) (evs : list event) :
  trace w' = (trace w ++ evs)%list -> new_events w w' = evs.
Proof. unfold new_events. intros ->. by rewrite drop_app_length. Qed.

Lemma logged_trace message self w :
  exists evs, trace (logged message self w) = (trace w ++ evs)%list /\
              forall input top_k, EvPipeCall input top_k ∉ evs.
Proof.
  unfold logged; simpl. destruct (default true (_logger_enabled self)).
  - eexists; split; [done|]. intros input top_k Hin.
    apply list_elem_of_singleton in Hin. discriminate.
  - exists []. split; [by rewrite app_nil_r|]. intros input top_k Hin.
    by apply not_elem_of_nil in Hin.
Qed.

(** The method under the decorators assigns no attribute, never turns the
    moment back and only adds to the trace. *)
Lemma run_body_frame user_input kwargs env self w :
  (run_body user_input kwargs env self w).1.2 = self /\
  (tick w <= tick (run_body user_input kwargs env self w).2)%nat /\
  exists evs, trace (run_body user_input kwargs env self w).2 = (trace w ++ evs)%list.
Proof.
  assert (forall input top_k w0,
    (exists evs, trace w0 = (trace w ++ evs)%list) -> (tick w <= tick w0)%nat ->
    (classify input top_k self w0).1.2 = self /\
    (tick w <= tick (classify input top_k self w0).2)%nat /\
    exists evs, trace (classify input top_k self w0).2 = (trace w ++ evs)%list) as Hcl.
  { intros input top_k w0 [evs Hevs] Htick. unfold classify.
    destruct (_pipe self) as [p|]; simpl.
    - split; [done|]. split; [lia|]. rewrite Hevs, <- app_assoc. eauto.
    - eauto. }
  assert (forall message w0,
    (exists evs, trace w0 = (trace w ++ evs)%list) ->
    exists evs, trace (logged message self w0) = (trace w ++ evs)%list) as Hlog.
  { intros message w0 [evs Hevs].
    destruct (logged_trace message self w0) as (evs' & -> & _).
    rewrite Hevs, <- app_assoc. eauto. }
  rewrite run_body_eq. destruct (cls self).
  - rewrite text_run_body_eq. destruct (py_len user_input) as [n|e].
    + apply Hcl; [|done]. apply Hlog. exists []. by rewrite app_nil_r.
    + simpl. split; [done|]. split; [done|]. exists []. by rewrite app_nil_r.
  - rewrite image_run_body_eq.
    assert (exists evs,
      trace (as_image user_input env w).2 = (trace w ++ evs)%list /\
      (tick w <= tick (as_image user_input env w).2)%nat) as (evs & Hevs & Htick).
    { unfold as_image. destruct user_input; simpl;
        try (exists []; split; [by rewrite app_nil_r | lia]).
      eexists; split; [done | lia]. }
    destruct (as_image user_input env w) as [[img|e] w1]; simpl in *.
    + destruct (py_int _) as [top_k|e]; simpl.
      * apply Hcl; [|done]. apply Hlog. eauto.
      * eauto.
    + eauto.
Qed.

(** ** Timing *)

(** With the flag set, [run] is the method of the class between two
    clock readings, followed by the assignment of their difference. *)
Lemma run_timed_eq (env : Env) (self : Runner) (w : World)
    (user_input : value) (kwargs : gmap string value) :
  _initialized self = true ->
  let t0 := time_time env (tick w) in
  let body :=
    run_body user_input kwargs env self
      {| tick := S (tick w); trace := trace w ++ [EvTime t0] |} in
  let t1 := time_time env (tick body.2) in
  run user_input kwargs env self w =
    (body.1.1, with_last_runtime_s (t1 - t0) self,
     {| tick := S (tick body.2);
        trace := (trace body.2 ++ [EvTime t1]) ++ [EvSetAttr "last_runtime_s"] |}).
Proof.
  intros Hinit t0 body t1.
  rewrite run_initialized_eq, timeit_eq by done. simpl.
  destruct (run_body_frame user_input kwargs env self
              {| tick := S (tick w); trace := trace w ++ [EvTime t0] |})
    as (Hself & _ & _).
  subst t1 body. fold t0 in Hself |- *.
  destruct (run_body _ _ _ _ _) as [[res self1] w1]. simpl in *. by subst.
Qed.

(** C3, as amended: when the initialization flag is set, [run] reads the
    clock, runs the method of the class, reads the clock again and assigns
    the difference of the two readings to [last_runtime_s]; the outcome,
    returned value or exception, is that of the method, and the
    assignment is the last event of the invocation.  When the second
    reading is not earlier than the first, the value assigned is not
    negative. *)
Theorem run_records_timing (env : Env) (self : Runner) (w : World)
    (user_input : value) (kwargs : gmap string value) :
  _initialized self = true ->
  let t0 := time_time env (tick w) in
  let body :=
    run_body user_input kwargs env self
      {| tick := S (tick w); trace := trace w ++ [EvTime t0] |} in
  let t1 := time_time env (tick body.2) in
  run user_input kwargs env self w =
    (body.1.1, with_last_runtime_s (t1 - t0) self,
     {| tick := S (tick body.2);
        trace := (trace body.2 ++ [EvTime t1]) ++ [EvSetAttr "last_runtime_s"] |}) /\
  EvSetAttr "last_runtime_s" ∈ new_events w (run user_input kwargs env self w).2 /\
  ((t0 <= t1)%Q -> records_timing env self w user_input kwargs).
Proof.
  intros Hinit t0 body t1.
  pose proof (run_timed_eq env self w user_input kwargs Hinit) as Hrun.
  simpl in Hrun. fold t0 in Hrun. fold body in Hrun. fold t1 in Hrun.
  assert (EvSetAttr "last_runtime_s"
            ∈ new_events w (run user_input kwargs env self w).2) as Hset.
  { rewrite Hrun. simpl.
    destruct (run_body_frame user_input kwargs env self
                {| tick := S (tick w); trace := trace w ++ [EvTime t0] |})
      as (_ & _ & evs & Hevs).
    fold body in Hevs. simpl in Hevs.
    erewrite new_events_app; last first.
    { simpl. rewrite Hevs, <- !app_assoc. done. }
    events. }
  split; [done|]. split; [done|]. intros Hle. split; [done|].
  rewrite Hrun. simpl. unfold Qminus. by apply Qle_minus_iff in Hle.
Qed.

Lemma run_records_timing_witness :
  records_timing env_demo
    (load env_demo make_text_sentiment_runner world0).1.2
    (load env_demo make_text_sentiment_runner world0).2
    (VStr "I love this!") ∅.
Proof.
  apply (run_records_timing env_demo
           (load env_demo make_text_sentiment_runner world0).1.2
           (load env_demo make_text_sentiment_runner world0).2
           (VStr "I love this!") ∅).
  - reflexivity.
  - vm_compute. discriminate.
Defined.

(** C3, as stated, fails twice.  On a runner that was never loaded the
    guard raises before the clock is read, so [run] assigns nothing; and
    on a loaded runner, a clock set back during the run leaves a negative
    value in [last_runtime_s]. *)
Lemma run_not_always_timed :
  ~ records_timing env_demo make_text_sentiment_runner world0
      (VStr "I love this!") ∅ /\
  ~ records_timing env_clock_set_back
      (load env_clock_set_back make_text_sentiment_runner world0).1.2
      (load env_clock_set_back make_text_sentiment_runner world0).2
      (VStr "I love this!") ∅.
Proof.
  split; intros [Hset Hnonneg].
  - vm_compute in Hset. by apply not_elem_of_nil in Hset.
  - vm_compute in Hnonneg. by apply Hnonneg.
Qed.

(** ** The result of [run] *)

(** When [run] returns, the pipeline was called and returned [results],
    and the mapping returned holds [results], the model identifier and
    the task.  Its [runtime_s] entry is the value [last_runtime_s] had
    when [run] was entered: the mapping is built inside the timed method,
    before the decorator assigns the duration of this invocation. *)
Lemma run_returned_dict (env : Env) (self : Runner) (w : World)
    (user_input : value) (kwargs : gmap string value)
    (d : gmap string value) (self' : Runner) (w' : World) :
  run user_input kwargs env self w = (Returned d, self', w') ->
  exists p n input top_k results,
    _pipe self = Some p /\
    pipe_call p n input top_k = Returned results /\
    EvPipeCall input top_k ∈ new_events w w' /\
    d !! "results" = Some results /\
    d !! "model" = Some (VStr (model_id self)) /\
    d !! "task" = Some (VStr (task self)) /\
    d !! "runtime_s" = Some (VFloat (last_runtime_s self)).
Proof.
  intros Hrun.
  destruct (_initialized self) eqn:Hinit; last first.
  { rewrite run_uninitialized_eq in Hrun by done. discriminate. }
  pose proof (run_timed_eq env self w user_input kwargs Hinit) as H. simpl in H.
  rewrite H in Hrun. clear H.
  set (t0 := time_time env (tick w)) in *.
  set (w0 := {| tick := S (tick w); trace := (trace w ++ [EvTime t0])%list |}) in *.
  assert (forall input top_k w1 (res : outcome (gmap string value) * Runner * World),
    classify input top_k self w1 = res -> res.1.1 = Returned d ->
    exists p results,
      _pipe self = Some p /\
      pipe_call p (tick w1) input top_k = Returned results /\
      trace res.2 = (trace w1 ++ [EvPipeCall input top_k])%list /\
      d = result_dict results self) as Hcl.
  { intros input top_k w1 res <-. unfold classify.
    destruct (_pipe self) as [p|]; [|done]. simpl.
    destruct (pipe_call p (tick w1) input top_k) as [results|e] eqn:Hp; [|done].
    intros [= <-]. eauto 10. }
  assert (exists p n input top_k results evs evs',
    _pipe self = Some p /\
    pipe_call p n input top_k = Returned results /\
    trace (run_body user_input kwargs env self w0).2
      = (trace w ++ evs ++ [EvPipeCall input top_k] ++ evs')%list /\
    d = result_dict results self) as Hbody.
  { assert ((run_body user_input kwargs env self w0).1.1 = Returned d) as Hres
      by (by injection Hrun).
    rewrite run_body_eq in Hres |- *. destruct (cls self).
    - rewrite text_run_body_eq in Hres |- *.
      destruct (py_len user_input) as [n|e]; [|done].
      destruct (logged_trace ("Running text model on input length=" ++ pretty n)
                  self w0) as (evs & Hevs & _).
      destruct (Hcl _ _ _ _ eq_refl Hres) as (p & results & ? & ? & Htr & ?).
      exists p, (tick w0), user_input, None, results, (EvTime t0 :: evs), [].
      rewrite Htr, Hevs. simpl. rewrite <- !app_assoc. done.
    - rewrite image_run_body_eq in Hres |- *.
      assert (exists evs, trace (as_image user_input env w0).2
                          = (trace w0 ++ evs)%list) as [evs1 Hevs1].
      { unfold as_image. destruct user_input; simpl;
          try (exists []; by rewrite app_nil_r). eauto. }
      destruct (as_image user_input env w0) as [[img|e] w1]; [|done].
      destruct (py_int _) as [top_k|e]; [|done]. simpl in Hevs1.
      destruct (logged_trace ("Running image model (top_k=" ++ pretty top_k
                                ++ ") on provided image...") self w1)
        as (evs & Hevs & _).
      destruct (Hcl _ _ _ _ eq_refl Hres) as (p & results & ? & ? & Htr & ?).
      exists p, (tick w1), (VImage img), (Some top_k), results,
        (EvTime t0 :: evs1 ++ evs), [].
      rewrite Htr, Hevs, Hevs1. simpl. rewrite <- !app_assoc. done. }
  destruct Hbody as (p & n & input & top_k & results & evs & evs' & Hp & Hcall & Htr & ->).
  exists p, n, input, top_k, results.
  split; [done|]. split; [done|]. split; [|done].
  injection Hrun as _ _ <-.
  erewrite new_events_app; last first.
  { simpl. rewrite Htr, <- !app_assoc. done. }
  events.
Qed.

(** C4 at a first run after loading: the load takes three seconds and the
    run one second.  [run] returns the scores of the pipeline, the model
    identifier and the task, but [runtime_s] is 3, the duration of the
    load, while the duration of the run itself, 1, is left in
    [last_runtime_s]. *)
Lemma run_reports_previous_runtime :
  exists d,
    (run (VStr "I love this!") ∅ env_demo
       (load env_demo make_text_sentiment_runner world0).1.2
       (load env_demo make_text_sentiment_runner world0).2).1.1 = Returned d /\
    d !! "results" = Some (VList [score "POSITIVE" (99 # 100)]) /\
    d !! "model" = Some (VStr "distilbert-base-uncased-finetuned-sst-2-english") /\
    d !! "task" = Some (VStr "sentiment-analysis") /\
    d !! "runtime_s" = Some (VFloat 3) /\
    last_runtime_s (load env_demo make_text_sentiment_runner world0).1.2 = 3%Q /\
    last_runtime_s
      (run (VStr "I love this!") ∅ env_demo
         (load env_demo make_text_sentiment_runner world0).1.2
         (load env_demo make_text_sentiment_runner world0).2).1.2 = 1%Q.
Proof.
  eexists. split; [vm_compute; reflexivity|].
  repeat split; vm_compute; reflexivity.
Qed.

(** ** Inputs of the wrong type *)

(** C5: on a loaded image runner, an input that is neither a string nor an
    image makes [run] raise the TypeError of the method; between the two
    clock readings of the decorator nothing happens, so no pipeline is
    called and the image decoder is not called either. *)
Theorem image_run_rejects_other_inputs (env : Env) (self : Runner) (w : World)
    (user_input : value) (kwargs : gmap string value) :
  cls self = ImageModelRunner ->
  _initialized self = true ->
  is_str user_input = false ->
  is_image user_input = false ->
  (run user_input kwargs env self w).1.1 =
    Raised (TypeError "user_input must be a path or PIL.Image.Image for image tasks.") /\
  raises_TypeError (run user_input kwargs env self w).1.1 /\
  new_events w (run user_input kwargs env self w).2 =
    [EvTime (time_time env (tick w)); EvTime (time_time env (S (tick w)));
     EvSetAttr "last_runtime_s"] /\
  no_pipe_call w (run user_input kwargs env self w).2.
Proof.
  intros Hcls Hinit Hstr Himg.
  pose proof (run_timed_eq env self w user_input kwargs Hinit) as Hrun. simpl in Hrun.
  rewrite run_body_eq, Hcls, image_run_body_eq in Hrun.
  assert (forall w0, as_image user_input env w0 =
    (Raised (TypeError "user_input must be a path or PIL.Image.Image for image tasks."),
     w0)) as Has.
  { intros w0. by destruct user_input. }
  rewrite Has in Hrun. simpl in Hrun. rewrite Hrun. simpl.
  assert (new_events w
    {| tick := S (S (tick w));
       trace := (((trace w ++ [EvTime (time_time env (tick w))])
                   ++ [EvTime (time_time env (S (tick w)))])
                   ++ [EvSetAttr "last_runtime_s"])%list |} =
    [EvTime (time_time env (tick w)); EvTime (time_time env (S (tick w)));
     EvSetAttr "last_runtime_s"]) as Hnew.
  { apply new_events_app. simpl. by rewrite <- !app_assoc. }
  split; [done|]. split; [by eexists|]. split; [done|].
  intros input top_k. rewrite Hnew. events.
Qed.

Lemma image_run_rejects_other_inputs_witness :
  raises_TypeError
    (run (VInt 7) {[ "top_k" := VInt 1 ]} env_demo
       (load env_demo make_image_classifier_runner world0).1.2
       (load env_demo make_image_classifier_runner world0).2).1.1 /\
  no_pipe_call (load env_demo make_image_classifier_runner world0).2
    (run (VInt 7) {[ "top_k" := VInt 1 ]} env_demo
       (load env_demo make_image_classifier_runner world0).1.2
       (load env_demo make_image_classifier_runner world0).2).2.
Proof.
  pose proof (image_run_rejects_other_inputs env_demo
           (load env_demo make_image_classifier_runner world0).1.2
           (load env_demo make_image_classifier_runner world0).2
           (VInt 7) {[ "top_k" := VInt 1 ]}
           eq_refl eq_refl eq_refl eq_refl) as (_ & H1 & _ & H2).
  exact (conj H1 H2).
Defined.

(** C9, as amended: on a loaded text runner, a non-string input without a
    length makes [run] raise the TypeError of [len], and no pipeline is
    called; a non-string input with a length is not refused: it is handed
    to the pipeline, and [run] returns or raises as the pipeline does. *)
Theorem text_run_non_string_input (env : Env) (self : Runner) (w : World)
    (user_input : value) (kwargs : gmap string value) :
  cls self = TextModelRunner ->
  _initialized self = true ->
  is_str user_input = false ->
  (forall e, py_len user_input = Raised e ->
     (run user_input kwargs env self w).1.1 = Raised e /\
     e = TypeError ("object of type '" ++ type_name user_input ++ "' has no len()") /\
     no_pipe_call w (run user_input kwargs env self w).2) /\
  (forall n p, py_len user_input = Returned n -> _pipe self = Some p ->
     (run user_input kwargs env self w).1.1 =
       match pipe_call p (S (tick w)) user_input None with
       | Returned results => Returned (result_dict results self)
       | Raised e => Raised e
       end /\
     EvPipeCall user_input None ∈ new_events w (run user_input kwargs env self w).2).
Proof.
  intros Hcls Hinit Hstr.
  pose proof (run_timed_eq env self w user_input kwargs Hinit) as Hrun. simpl in Hrun.
  rewrite run_body_eq, Hcls, text_run_body_eq in Hrun.
  split.
  - intros e Hlen. rewrite Hlen in Hrun. simpl in Hrun. rewrite Hrun. simpl.
    split; [done|]. split.
    + destruct user_input; simpl in Hlen; by simplify_eq.
    + intros input top_k. erewrite new_events_app; last first.
      { simpl. by rewrite <- !app_assoc. }
      events.
  - intros n p Hlen Hp. rewrite Hlen in Hrun. unfold classify in Hrun.
    rewrite Hp in Hrun. simpl in Hrun. rewrite Hrun. simpl. split; [done|].
    destruct (logged_trace ("Running text model on input length=" ++ pretty n) self
                {| tick := S (tick w);
                   trace := (trace w ++ [EvTime (time_time env (tick w))])%list |})
      as (evs & Hevs & _).
    erewrite new_events_app; last first.
    { simpl. unfold logged in Hevs. simpl in Hevs. rewrite Hevs, <- !app_assoc. done. }
    events.
Qed.

Lemma text_run_non_string_input_witness :
  (run (VInt 7) ∅ env_demo
     (load env_demo make_text_sentiment_runner world0).1.2
     (load env_demo make_text_sentiment_runner world0).2).1.1
  = Raised (TypeError "object of type 'int' has no len()").
Proof.
  pose proof (text_run_non_string_input env_demo
           (load env_demo make_text_sentiment_runner world0).1.2
           (load env_demo make_text_sentiment_runner world0).2
           (VInt 7) ∅ eq_refl eq_refl eq_refl) as [H _].
  exact (proj1 (H _ eq_refl)).
Defined.

(** C9, as stated, fails: a list of strings is not a string, and [run]
    returns the scores the pipeline gives for it. *)
Lemma text_run_accepts_list :
  is_str (VList [VStr "I love this!"]) = false /\
  ~ raises_TypeError
      (run (VList [VStr "I love this!"]) ∅ env_demo
         (load env_demo make_text_sentiment_runner world0).1.2
         (load env_demo make_text_sentiment_runner world0).2).1.1.
Proof.
  split; [reflexivity|]. intros [msg H]. vm_compute in H. discriminate.
Qed.

(** ** The [top_k] option *)

(** C6: on a loaded image runner whose pipeline keeps the provider's
    promise, and for an input that is an image or a path that the decoder
    opens, [run] takes [top_k] from the options, 5 when it is absent,
    turns it into an integer [k] with [int], calls the pipeline on the
    image with [top_k=k] and returns the list it gets as [results].  The
    list has [k] entries, or as many as the model has labels when that is
    fewer: exactly one for [top_k=1], at most three for [top_k=3]. *)
Theorem image_run_top_k (env : Env) (self : Runner) (w : World)
    (user_input : value) (kwargs : gmap string value)
    (p : Pipe) (nlabels : nat) (img : Image) (k : Z) :
  cls self = ImageModelRunner ->
  _initialized self = true ->
  _pipe self = Some p ->
  returns_top_k p nlabels ->
  (1 <= nlabels)%nat ->
  (user_input = VImage img \/
   exists path, user_input = VStr path /\
                Image_open_convert env (S (tick w)) path = Returned img) ->
  py_int (default (VInt 5) (kwargs !! "top_k")) = Returned k ->
  exists d l,
    (run user_input kwargs env self w).1.1 = Returned d /\
    EvPipeCall (VImage img) (Some k) ∈ new_events w (run user_input kwargs env self w).2 /\
    d !! "results" = Some (VList l) /\
    length l = Nat.min (Z.to_nat k) nlabels /\
    (kwargs !! "top_k" = None -> k = 5%Z) /\
    (k = 1%Z -> length l = 1%nat) /\
    (k = 3%Z -> (length l <= 3)%nat).
Proof.
  intros Hcls Hinit Hp Hcontract Hlabels Hinput Hk.
  pose proof (run_timed_eq env self w user_input kwargs Hinit) as Hrun. simpl in Hrun.
  rewrite run_body_eq, Hcls, image_run_body_eq in Hrun.
  set (t0 := time_time env (tick w)) in *.
  set (w0 := {| tick := S (tick w); trace := (trace w ++ [EvTime t0])%list |}) in *.
  assert (exists evs, as_image user_input env w0 = (Returned img, (as_image user_input env w0).2)
                      /\ trace (as_image user_input env w0).2 = (trace w0 ++ evs)%list)
    as (evs1 & Has & Hevs1).
  { destruct Hinput as [-> | (path & -> & Hopen)]; simpl.
    - exists []. by rewrite app_nil_r.
    - rewrite Hopen. eauto. }
  rewrite Has, Hk in Hrun. unfold classify in Hrun. rewrite Hp in Hrun.
  set (w1 := (as_image user_input env w0).2) in *.
  set (w2 := logged _ self w1) in *.
  destruct (Hcontract (tick w2) img k) as (l & Hcall & Hlen).
  rewrite Hcall in Hrun. simpl in Hrun.
  exists (result_dict (VList l) self), l. rewrite Hrun. simpl.
  split; [done|]. split.
  { destruct (logged_trace ("Running image model (top_k=" ++ pretty k
                              ++ ") on provided image...") self w1)
      as (evs & Hevs & _).
    unfold logged in Hevs. simpl in Hevs. erewrite new_events_app; last first.
    { simpl. rewrite Hevs, Hevs1. simpl. rewrite <- !app_assoc. done. }
    events. }
  split; [done|]. split; [done|]. split.
  { intros Hnone. rewrite Hnone in Hk. simpl in Hk. by injection Hk. }
  split.
  - intros ->. rewrite Hlen. change (Z.to_nat 1) with 1%nat. lia.
  - intros ->. rewrite Hlen. change (Z.to_nat 3) with 3%nat. lia.
Qed.

Lemma pipe_demo_returns_top_k : returns_top_k pipe_demo 3.
Proof.
  intros n img k. eexists. split; [reflexivity|].
  rewrite length_take. reflexivity.
Qed.

Lemma image_run_top_k_witness :
  exists d l,
    (run (VStr "cat.png") {[ "top_k" := VStr "1" ]} env_demo
       (load env_demo make_image_classifier_runner world0).1.2
       (load env_demo make_image_classifier_runner world0).2).1.1 = Returned d /\
    d !! "results" = Some (VList l) /\
    length l = 1%nat.
Proof.
  destruct (image_run_top_k env_demo
              (load env_demo make_image_classifier_runner world0).1.2
              (load env_demo make_image_classifier_runner world0).2
              (VStr "cat.png") {[ "top_k" := VStr "1" ]}
              pipe_demo 3
              {| image_class := "PngImageFile"; image_id := 7 |} 1)
    as (d & l & Hrun & _ & Hres & _ & _ & Hone & _).
  - reflexivity.
  - reflexivity.
  - reflexivity.
  - exact pipe_demo_returns_top_k.
  - lia.
  - right. exists "cat.png". split; reflexivity.
  - reflexivity.
  - exists d, l. split; [exact Hrun|]. split; [exact Hres|]. apply Hone. reflexivity.
Defined.

(** * Further properties of the runners *)

Lemma logged_eq message self w :
  logged message self w =
    {| tick := tick w; trace := trace w ++ log_events message self |}.
Proof.
  unfold logged, log_events.
  destruct (default true (_logger_enabled self)); [done|].
  by rewrite app_nil_r.
Qed.

(** ** The timing decorator *)

(** X1: for every method [fn], [timeit fn] has the outcome of [fn],
    returned value or exception; it reads the clock once before and once
    after [fn], and whatever [fn] did to the runner, [last_runtime_s] ends
    as the difference of these two readings and nothing else is touched. *)
Theorem timeit_contract {A} (fn : M A) (env : Env) (self : Runner) (w : World) :
  let t0 := time_time env (tick w) in
  let inner :=
    fn env self {| tick := S (tick w); trace := trace w ++ [EvTime t0] |} in
  let t1 := time_time env (tick inner.2) in
  (timeit fn env self w).1.1 = inner.1.1 /\
  (timeit fn env self w).1.2 = with_last_runtime_s (t1 - t0) inner.1.2 /\
  last_runtime_s (timeit fn env self w).1.2 = (t1 - t0)%Q /\
  tick (timeit fn env self w).2 = S (tick inner.2) /\
  trace (timeit fn env self w).2
    = (trace inner.2 ++ [EvTime t1; EvSetAttr "last_runtime_s"])%list.
Proof.
  cbv zeta. rewrite timeit_eq. cbv zeta.
  destruct (fn env self _) as [[res self1] w1]. simpl.
  by rewrite <- app_assoc.
Qed.

(** ** Loading *)

Lemma load_timed_eq env self w :
  let t0 := time_time env (tick w) in
  let t1 := time_time env (S (S (tick w))) in
  load env self w =
    match pipeline env (S (tick w)) (task self) (model_id self) with
    | Returned p =>
        (Returned tt,
         with_last_runtime_s (t1 - t0)
           (with__initialized true (with__pipe (Some p) self)),
         {| tick := S (S (S (tick w)));
            trace := trace w ++ [EvTime t0] ++ log_events (load_message self) self
                       ++ [EvPipeline (task self) (model_id self);
                           EvSetAttr "_pipe"; EvSetAttr "_initialized";
                           EvTime t1; EvSetAttr "last_runtime_s"] |})
    | Raised e =>
        (Raised e, with_last_runtime_s (t1 - t0) self,
         {| tick := S (S (S (tick w)));
            trace := trace w ++ [EvTime t0] ++ log_events (load_message self) self
                       ++ [EvPipeline (task self) (model_id self);
                           EvTime t1; EvSetAttr "last_runtime_s"] |})
    end.
Proof.
  intros t0 t1. rewrite load_eq. unfold load_message.
  destruct (cls self);
    unfold TextModelRunner.load, ImageModelRunner.load;
    rewrite timeit_eq;
    unfold TextModelRunner.load_body, ImageModelRunner.load_body, bind, get_self;
    rewrite log_eq;
    unfold call_pipeline, bind, emit, ask, lift, set__pipe, set__initialized,
      set_attr; simpl;
    fold t0;
    destruct (pipeline env (S (tick w)) (task self) (model_id self)); simpl;
    unfold log_events; destruct (default true (_logger_enabled self)); simpl;
    rewrite <- ?app_assoc; simpl; done.
Qed.

(** X2: when the hub answers with a pipeline [p], [load] returns, stores
    [p], sets the flag and records the time it took, on a loaded runner as
    on an unloaded one (there is no cache: loading again asks the hub
    again and replaces the pipeline).  It asks the hub exactly once, for
    the runner's task and model, runs no inference and opens no image;
    the configuration of the runner is not touched. *)
Theorem load_success (env : Env) (self : Runner) (w : World) (p : Pipe) :
  pipeline env (S (tick w)) (task self) (model_id self) = Returned p ->
  (load env self w).1.1 = Returned tt /\
  _pipe (load env self w).1.2 = Some p /\
  _initialized (load env self w).1.2 = true /\
  last_runtime_s (load env self w).1.2
    = (time_time env (S (S (tick w))) - time_time env (tick w))%Q /\
  hub_requests (new_events w (load env self w).2) = [(task self, model_id self)] /\
  pipe_calls (new_events w (load env self w).2) = [] /\
  opened_paths (new_events w (load env self w).2) = [] /\
  assigned (new_events w (load env self w).2)
    = ["_pipe"; "_initialized"; "last_runtime_s"] /\
  cls (load env self w).1.2 = cls self /\
  model_id (load env self w).1.2 = model_id self /\
  task (load env self w).1.2 = task self /\
  category (load env self w).1.2 = category self /\
  short_description (load env self w).1.2 = short_description self /\
  _logger_enabled (load env self w).1.2 = _logger_enabled self.
Proof.
  intros Hp. pose proof (load_timed_eq env self w) as H. simpl in H.
  rewrite Hp in H. rewrite H. simpl.
  erewrite new_events_app by (simpl; reflexivity).
  unfold log_events. by destruct (default true (_logger_enabled self)).
Qed.

Lemma load_success_witness :
  _pipe (load env_demo (load env_demo make_text_sentiment_runner world0).1.2
           (load env_demo make_text_sentiment_runner world0).2).1.2
    = Some pipe_demo /\
  hub_requests
    (new_events (load env_demo make_text_sentiment_runner world0).2
       (load env_demo (load env_demo make_text_sentiment_runner world0).1.2
          (load env_demo make_text_sentiment_runner world0).2).2)
    = [("sentiment-analysis", "distilbert-base-uncased-finetuned-sst-2-english")].
Proof.
  pose proof (load_success env_demo
                (load env_demo make_text_sentiment_runner world0).1.2
                (load env_demo make_text_sentiment_runner world0).2
                pipe_demo eq_refl) as (_ & H1 & _ & _ & H2 & _).
  exact (conj H1 H2).
Defined.

(** X3: when the hub raises, [load] raises the same exception after
    recording the time the attempt took; no other attribute changes, so a
    runner that was loaded keeps its flag and its previous pipeline.  The
    hub was asked once and no inference was run. *)
Theorem load_failure_changes_only_runtime (env : Env) (self : Runner) (w : World)
    (e : exn) :
  pipeline env (S (tick w)) (task self) (model_id self) = Raised e ->
  (load env self w).1.1 = Raised e /\
  same_but_runtime self (load env self w).1.2 /\
  last_runtime_s (load env self w).1.2
    = (time_time env (S (S (tick w))) - time_time env (tick w))%Q /\
  hub_requests (new_events w (load env self w).2) = [(task self, model_id self)] /\
  pipe_calls (new_events w (load env self w).2) = [] /\
  assigned (new_events w (load env self w).2) = ["last_runtime_s"].
Proof.
  intros Hp. pose proof (load_timed_eq env self w) as H. simpl in H.
  rewrite Hp in H. rewrite H. simpl.
  erewrite new_events_app by (simpl; reflexivity).
  unfold log_events, same_but_runtime.
  by destruct (default true (_logger_enabled self)).
Qed.

Lemma load_failure_changes_only_runtime_witness :
  _initialized
    (load env_offline (load env_demo make_image_classifier_runner world0).1.2
       (load env_demo make_image_classifier_runner world0).2).1.2 = true /\
  _pipe
    (load env_offline (load env_demo make_image_classifier_runner world0).1.2
       (load env_demo make_image_classifier_runner world0).2).1.2
    = Some pipe_demo.
Proof.
  pose proof (load_failure_changes_only_runtime env_offline
                (load env_demo make_image_classifier_runner world0).1.2
                (load env_demo make_image_classifier_runner world0).2
                _ eq_refl) as (_ & Hsame & _).
  destruct Hsame as (_ & _ & _ & _ & _ & Hinit & Hpipe & _).
  exact (conj Hinit Hpipe).
Defined.

(** ** What [run] leaves alone *)

Lemma same_but_runtime_refl self : same_but_runtime self self.
Proof. by repeat split. Qed.

Lemma run_same_but_runtime user_input kwargs env self w :
  same_but_runtime self (run user_input kwargs env self w).1.2.
Proof.
  destruct (_initialized self) eqn:Hinit.
  - pose proof (run_timed_eq env self w user_input kwargs Hinit) as H.
    simpl in H. rewrite H. by repeat split.
  - rewrite run_uninitialized_eq by done. apply same_but_runtime_refl.
Qed.

(** X4: whatever the input, the options and the answers of the outside
    world, and whether it returns or raises, [run] changes no attribute of
    the runner other than [last_runtime_s]: not the pipeline, not the
    flag, not the configuration.  It never asks the hub for a pipeline. *)
Theorem run_changes_only_runtime (env : Env) (self : Runner) (w : World)
    (user_input : value) (kwargs : gmap string value) :
  same_but_runtime self (run user_input kwargs env self w).1.2 /\
  hub_requests (new_events w (run user_input kwargs env self w).2) = [] /\
  (forall name, name ∈ assigned (new_events w (run user_input kwargs env self w).2) ->
     name = "last_runtime_s").
Proof.
  split; [apply run_same_but_runtime|].
  destruct (_initialized self) eqn:Hinit; last first.
  { rewrite run_uninitialized_eq by done. simpl.
    unfold new_events. rewrite drop_all. split; [done|].
    intros name Hin. by apply elem_of_nil in Hin. }
  pose proof (run_timed_eq env self w user_input kwargs Hinit) as H.
  simpl in H. rewrite H. simpl. clear H.
  set (t0 := time_time env (tick w)).
  set (w0 := {| tick := S (tick w); trace := (trace w ++ [EvTime t0])%list |}).
  assert (exists evs,
    trace (run_body user_input kwargs env self w0).2 = (trace w ++ evs)%list /\
    hub_requests evs = [] /\ assigned evs = []) as (evs & Hevs & Hhub & Hset).
  { assert (forall input top_k w1 evs1,
      trace w1 = (trace w ++ evs1)%list ->
      hub_requests evs1 = [] -> assigned evs1 = [] ->
      exists evs, trace (classify input top_k self w1).2 = (trace w ++ evs)%list /\
                  hub_requests evs = [] /\ assigned evs = []) as Hcl.
    { intros input top_k w1 evs1 Hw1 Hh Ha. unfold classify.
      destruct (_pipe self); simpl; [|eauto].
      exists (evs1 ++ [EvPipeCall input top_k])%list.
      rewrite Hw1, <- app_assoc. unfold hub_requests, assigned in *.
      rewrite !omap_app, Hh, Ha. done. }
    assert (forall message, hub_requests (log_events message self) = [] /\
                            assigned (log_events message self) = []) as Hle.
    { intros message. unfold log_events.
      by destruct (default true (_logger_enabled self)). }
    rewrite run_body_eq. destruct (cls self).
    - rewrite text_run_body_eq. destruct (py_len user_input) as [n|e]; simpl.
      + rewrite logged_eq.
        eapply Hcl with (evs1 := (_ :: log_events _ self)).
        * simpl. by rewrite <- app_assoc.
        * apply (Hle _).
        * apply (Hle _).
      + by exists [EvTime t0].
    - rewrite image_run_body_eq.
      assert (exists evs1,
        trace (as_image user_input env w0).2 = (trace w ++ evs1)%list /\
        hub_requests evs1 = [] /\ assigned evs1 = []) as (evs1 & Hevs1 & Hh1 & Ha1).
      { unfold as_image. destruct user_input; simpl;
          try (by exists [EvTime t0]).
        exists [EvTime t0; EvImageOpen s]. by rewrite <- app_assoc. }
      destruct (as_image user_input env w0) as [[img|e] w1]; simpl in *; [|eauto].
      destruct (py_int _) as [top_k|e]; simpl; [|eauto].
      rewrite logged_eq.
      eapply Hcl with (evs1 := (evs1 ++ log_events _ self)%list).
      * simpl. by rewrite Hevs1, <- app_assoc.
      * unfold hub_requests in *. rewrite omap_app, Hh1. apply (Hle _).
      * unfold assigned in *. rewrite omap_app, Ha1. apply (Hle _). }
  erewrite new_events_app; last first.
  { simpl. rewrite Hevs, <- !app_assoc. done. }
  unfold hub_requests, assigned in *. rewrite !omap_app, Hhub, Hset. simpl.
  split; [done|]. intros name Hin. by apply list_elem_of_singleton in Hin.
Qed.

Lemma run_changes_only_runtime_witness :
  _pipe (run (VInt 3) ∅ env_demo
           (load env_demo make_image_classifier_runner world0).1.2
           (load env_demo make_image_classifier_runner world0).2).1.2
    = Some pipe_demo /\
  forall name,
    name ∈ assigned
             (new_events (load env_demo make_image_classifier_runner world0).2
                (run (VInt 3) ∅ env_demo
                   (load env_demo make_image_classifier_runner world0).1.2
                   (load env_demo make_image_classifier_runner world0).2).2) ->
    name = "last_runtime_s".
Proof.
  pose proof (run_changes_only_runtime env_demo
                (load env_demo make_image_classifier_runner world0).1.2
                (load env_demo make_image_classifier_runner world0).2
                (VInt 3) ∅) as (Hsame & _ & Hset).
  destruct Hsame as (_ & _ & _ & _ & _ & _ & Hpipe & _).
  exact (conj Hpipe Hset).
Defined.

(** ** The life cycle, continued *)

Lemma perform_load_eq env self w :
  perform CallLoad env self w =
    (match (load env self w).1.1 with
     | Returned _ => Returned VNone
     | Raised e => Raised e
     end, (load env self w).1.2, (load env self w).2).
Proof.
  simpl. unfold bind, ret.
  by destruct (load env self w) as [[[[]|e] self1] w1].
Qed.

Lemma perform_run_eq user_input kwargs env self w :
  perform (CallRun user_input kwargs) env self w =
    (match (run user_input kwargs env self w).1.1 with
     | Returned d => Returned (VDict d)
     | Raised e => Raised e
     end, (run user_input kwargs env self w).1.2, (run user_input kwargs env self w).2).
Proof.
  simpl. unfold bind, ret.
  by destruct (run user_input kwargs env self w) as [[[d|e] self1] w1].
Qed.

Lemma load_flag_and_pipe env self w :
  match (load env self w).1.1 with
  | Returned _ =>
      _initialized (load env self w).1.2 = true /\
      is_Some (_pipe (load env self w).1.2)
  | Raised _ => same_but_runtime self (load env self w).1.2
  end.
Proof.
  pose proof (load_timed_eq env self w) as H. simpl in H.
  destruct (pipeline env (S (tick w)) (task self) (model_id self));
    rewrite H; simpl; [eauto | by repeat split].
Qed.

(** X5: on a runner built by the dataclass constructor, and after any
    sequence of [load], [run], [meta] and [describe] calls on it, whatever
    the outside world answers: when the initialization flag is set, the
    pipeline reference is populated.  [load] assigns the pipeline before
    the flag, a failing [load] assigns neither, and no other method
    assigns them. *)
Theorem flag_implies_pipe_invariant (c : runner_class)
    (model task cat desc : string) (cs : list call) (env : Env) (w : World) :
  flag_implies_pipe (new_runner c model task cat desc) /\
  flag_implies_pipe (perform_all cs env (new_runner c model task cat desc) w).1.
Proof.
  assert (flag_implies_pipe (new_runner c model task cat desc)) as H0 by done.
  split; [done|].
  generalize dependent (new_runner c model task cat desc). clear.
  intros self. revert self w.
  induction cs as [|call cs IH]; intros self w Hself; [done|].
  simpl. destruct (perform call env self w) as [[res self1] w1] eqn:E.
  apply IH. clear IH.
  destruct call as [|user_input kwargs| |].
  - rewrite perform_load_eq in E. injection E as _ <- _.
    pose proof (load_flag_and_pipe env self w) as H.
    destruct (load env self w).1.1.
    + destruct H as [_ H]. by intros _.
    + destruct H as (_ & _ & _ & _ & _ & Hi & Hp & _).
      unfold flag_implies_pipe. rewrite Hi, Hp. done.
  - rewrite perform_run_eq in E. injection E as _ <- _.
    destruct (run_same_but_runtime user_input kwargs env self w)
      as (_ & _ & _ & _ & _ & Hi & Hp & _).
    unfold flag_implies_pipe. rewrite Hi, Hp. done.
  - simpl in E. by injection E as _ <- _.
  - simpl in E. by injection E as _ <- _.
Qed.

(** X6: one call of the public interface leaves the flag set exactly when
    it was set before, or the call is a [load] that returned.  So the only
    way from unloaded to loaded is a successful [load], and nothing leads
    back. *)
Theorem flag_after_call (c : call) (env : Env) (self : Runner) (w : World) :
  _initialized (perform c env self w).1.2 = true <->
  _initialized self = true \/
  (c = CallLoad /\ (perform c env self w).1.1 = Returned VNone).
Proof.
  destruct c as [|user_input kwargs| |].
  - rewrite perform_load_eq. simpl.
    pose proof (load_flag_and_pipe env self w) as H.
    destruct (load env self w).1.1.
    + destruct H as [H _]. rewrite H. intuition (discriminate || congruence).
    + destruct H as (_ & _ & _ & _ & _ & Hi & _). rewrite Hi. intuition (discriminate || congruence).
  - rewrite perform_run_eq. simpl.
    destruct (run_same_but_runtime user_input kwargs env self w)
      as (_ & _ & _ & _ & _ & Hi & _).
    rewrite Hi. intuition (discriminate || congruence).
  - simpl. intuition (discriminate || congruence).
  - simpl. intuition (discriminate || congruence).
Qed.

Lemma flag_after_call_witness :
  _initialized (perform CallLoad env_demo make_text_sentiment_runner world0).1.2 = true /\
  _initialized
    (perform (CallRun (VStr "I love this!") ∅) env_demo make_text_sentiment_runner
       world0).1.2 = false.
Proof.
  split.
  - apply (flag_after_call CallLoad env_demo make_text_sentiment_runner world0).
    right. split; reflexivity.
  - destruct (_initialized
                (perform (CallRun (VStr "I love this!") ∅) env_demo
                   make_text_sentiment_runner world0).1.2) eqn:E; [|reflexivity].
    apply (flag_after_call (CallRun (VStr "I love this!") ∅) env_demo
             make_text_sentiment_runner world0) in E.
    destruct E as [E | [E _]]; discriminate.
Defined.

(** X7: without a [load], nothing happens: on a runner whose flag is not
    set, any sequence of [run], [meta] and [describe] calls leaves the
    runner exactly as it was and performs no effect at all; the clock is
    not read, nothing is printed, no image is opened and the hub is not
    asked. *)
Theorem no_load_no_effect (cs : list call) (env : Env) (self : Runner) (w : World) :
  _initialized self = false ->
  CallLoad ∉ cs ->
  perform_all cs env self w = (self, w).
Proof.
  intros Hinit. revert w. induction cs as [|c cs IH]; intros w Hno; [done|].
  apply not_elem_of_cons in Hno as [Hc Hcs].
  simpl. destruct c as [|user_input kwargs| |]; [done| | |].
  - rewrite perform_run_eq, run_uninitialized_eq by done. simpl. by apply IH.
  - simpl. by apply IH.
  - simpl. by apply IH.
Qed.

Lemma no_load_no_effect_witness :
  perform_all
    [CallRun (VStr "I love this!") ∅; CallMeta; CallRun (VInt 3) ∅; CallDescribe]
    env_demo make_text_sentiment_runner world0
  = (make_text_sentiment_runner, world0).
Proof.
  apply (no_load_no_effect
           [CallRun (VStr "I love this!") ∅; CallMeta; CallRun (VInt 3) ∅; CallDescribe]
           env_demo make_text_sentiment_runner world0).
  - reflexivity.
  - intros Hin. repeat (apply elem_of_cons in Hin as [Hin|Hin]; [discriminate|]).
    by apply elem_of_nil in Hin.
Defined.

(** ** Options *)

(** X8: [run] looks at no option other than [top_k]: two option sets that
    agree on [top_k] (present with the same value, or absent from both) give
    the same outcome, the same runner and the same effects.  The text
    runner ignores its options altogether. *)
Theorem run_ignores_other_options (env : Env) (self : Runner) (w : World)
    (user_input : value) (kwargs kwargs' : gmap string value) :
  (cls self = ImageModelRunner -> kwargs !! "top_k" = kwargs' !! "top_k") ->
  run user_input kwargs env self w = run user_input kwargs' env self w.
Proof.
  intros Hk. rewrite !run_eq. destruct (cls self); [done|].
  unfold ImageModelRunner.run, ImageModelRunner.run_body.
  by rewrite Hk.
Qed.

Lemma run_ignores_other_options_witness :
  run (VStr "cat.png") {[ "top_k" := VInt 1; "device" := VStr "cpu" ]} env_demo
    (load env_demo make_image_classifier_runner world0).1.2
    (load env_demo make_image_classifier_runner world0).2
  = run (VStr "cat.png") {[ "top_k" := VInt 1 ]} env_demo
      (load env_demo make_image_classifier_runner world0).1.2
      (load env_demo make_image_classifier_runner world0).2.
Proof.
  apply (run_ignores_other_options env_demo
           (load env_demo make_image_classifier_runner world0).1.2
           (load env_demo make_image_classifier_runner world0).2
           (VStr "cat.png")
           {[ "top_k" := VInt 1; "device" := VStr "cpu" ]} {[ "top_k" := VInt 1 ]}).
  intros _. reflexivity.
Defined.

(** ** One inference per run *)

(** X9: on a loaded text runner holding the pipeline [p], [run] on a
    string calls [p] exactly once, on that very string and without any
    option, opens no image and reads the clock twice; it returns the
    mapping built from what [p] returns, or raises what [p] raises. *)
Theorem text_run_calls_pipeline_once (env : Env) (self : Runner) (w : World)
    (s : string) (kwargs : gmap string value) (p : Pipe) :
  cls self = TextModelRunner ->
  _initialized self = true ->
  _pipe self = Some p ->
  (run (VStr s) kwargs env self w).1.1 =
    match pipe_call p (S (tick w)) (VStr s) None with
    | Returned results => Returned (result_dict results self)
    | Raised e => Raised e
    end /\
  pipe_calls (new_events w (run (VStr s) kwargs env self w).2) = [(VStr s, None)] /\
  opened_paths (new_events w (run (VStr s) kwargs env self w).2) = [] /\
  clock_readings (new_events w (run (VStr s) kwargs env self w).2)
    = [time_time env (tick w); time_time env (S (S (tick w)))].
Proof.
  intros Hcls Hinit Hp.
  pose proof (run_timed_eq env self w (VStr s) kwargs Hinit) as H. simpl in H.
  rewrite run_body_eq, Hcls, text_run_body_eq in H. simpl in H.
  rewrite logged_eq in H. unfold classify in H. rewrite Hp in H. simpl in H.
  rewrite H. simpl. split; [done|].
  erewrite new_events_app; last first.
  { simpl. rewrite <- !app_assoc. done. }
  unfold log_events. by destruct (default true (_logger_enabled self)).
Qed.

Lemma text_run_calls_pipeline_once_witness :
  pipe_calls
    (new_events (load env_demo make_text_sentiment_runner world0).2
       (run (VStr "I love this!") ∅ env_demo
          (load env_demo make_text_sentiment_runner world0).1.2
          (load env_demo make_text_sentiment_runner world0).2).2)
  = [(VStr "I love this!", None)].
Proof.
  pose proof (text_run_calls_pipeline_once env_demo
                (load env_demo make_text_sentiment_runner world0).1.2
                (load env_demo make_text_sentiment_runner world0).2
                "I love this!" ∅ pipe_demo eq_refl eq_refl eq_refl) as (_ & H & _).
  exact H.
Defined.

(** X10: on a loaded image runner holding the pipeline [p], when [top_k]
    turns into the integer [k]: for an image object, [run] calls no
    decoder and calls [p] exactly once, on that very image with [top_k=k];
    for a path that the decoder opens as [img], it calls the decoder once
    on the path and then [p] once on [img] with [top_k=k].  In both cases
    it returns the mapping built from what [p] returns, or raises what [p]
    raises. *)
Theorem image_run_calls_pipeline_once (env : Env) (self : Runner) (w : World)
    (kwargs : gmap string value) (p : Pipe) (img : Image) (k : Z) :
  cls self = ImageModelRunner ->
  _initialized self = true ->
  _pipe self = Some p ->
  py_int (default (VInt 5) (kwargs !! "top_k")) = Returned k ->
  ((run (VImage img) kwargs env self w).1.1 =
     match pipe_call p (S (tick w)) (VImage img) (Some k) with
     | Returned results => Returned (result_dict results self)
     | Raised e => Raised e
     end /\
   opened_paths (new_events w (run (VImage img) kwargs env self w).2) = [] /\
   pipe_calls (new_events w (run (VImage img) kwargs env self w).2)
     = [(VImage img, Some k)]) /\
  (forall path,
     Image_open_convert env (S (tick w)) path = Returned img ->
     (run (VStr path) kwargs env self w).1.1 =
       match pipe_call p (S (S (tick w))) (VImage img) (Some k) with
       | Returned results => Returned (result_dict results self)
       | Raised e => Raised e
       end /\
     opened_paths (new_events w (run (VStr path) kwargs env self w).2) = [path] /\
     pipe_calls (new_events w (run (VStr path) kwargs env self w).2)
       = [(VImage img, Some k)]).
Proof.
  intros Hcls Hinit Hp Hk. split.
  - pose proof (run_timed_eq env self w (VImage img) kwargs Hinit) as H. simpl in H.
    rewrite run_body_eq, Hcls, image_run_body_eq in H. simpl in H.
    rewrite Hk, logged_eq in H. unfold classify in H. rewrite Hp in H. simpl in H.
    rewrite H. simpl. split; [done|].
    erewrite new_events_app; last first.
    { simpl. rewrite <- !app_assoc. done. }
    unfold log_events. by destruct (default true (_logger_enabled self)).
  - intros path Hopen.
    pose proof (run_timed_eq env self w (VStr path) kwargs Hinit) as H. simpl in H.
    rewrite run_body_eq, Hcls, image_run_body_eq in H. simpl in H.
    rewrite Hopen, Hk, logged_eq in H. unfold classify in H. rewrite Hp in H.
    simpl in H. rewrite H. simpl. split; [done|].
    erewrite new_events_app; last first.
    { simpl. rewrite <- !app_assoc. done. }
    unfold log_events. by destruct (default true (_logger_enabled self)).
Qed.

Lemma image_run_calls_pipeline_once_witness :
  pipe_calls
    (new_events (load env_demo make_image_classifier_runner world0).2
       (run (VStr "cat.png") {[ "top_k" := VFloat (5 # 2) ]} env_demo
          (load env_demo make_image_classifier_runner world0).1.2
          (load env_demo make_image_classifier_runner world0).2).2)
  = [(VImage {| image_class := "PngImageFile"; image_id := 7 |}, Some 2%Z)].
Proof.
  pose proof (image_run_calls_pipeline_once env_demo
                (load env_demo make_image_classifier_runner world0).1.2
                (load env_demo make_image_classifier_runner world0).2
                {[ "top_k" := VFloat (5 # 2) ]} pipe_demo
                {| image_class := "PngImageFile"; image_id := 7 |} 2
                eq_refl eq_refl eq_refl eq_refl) as [_ H].
  exact (proj2 (proj2 (H "cat.png" eq_refl))).
Defined.

(** ** Failures before the inference *)



(** X12: on a loaded image runner, when the decoder raises on the path,
    [run] raises the same exception, whatever the options are (the
    [top_k] option is not read, so even one that [int] would refuse does
    not matter); nothing is printed and the pipeline is not called. *)
Theorem image_run_decoder_failure (env : Env) (self : Runner) (w : World)
    (path : string) (kwargs : gmap string value) (e : exn) :
  cls self = ImageModelRunner ->
  _initialized self = true ->
  Image_open_convert env (S (tick w)) path = Raised e ->
  (run (VStr path) kwargs env self w).1.1 = Raised e /\
  opened_paths (new_events w (run (VStr path) kwargs env self w).2) = [path] /\
  pipe_calls (new_events w (run (VStr path) kwargs env self w).2) = [] /\
  printed (new_events w (run (VStr path) kwargs env self w).2) = [].
Proof.
  intros Hcls Hinit Hopen.
  pose proof (run_timed_eq env self w (VStr path) kwargs Hinit) as H. simpl in H.
  rewrite run_body_eq, Hcls, image_run_body_eq in H. simpl in H.
  rewrite Hopen in H. simpl in H. rewrite H. simpl. split; [done|].
  erewrite new_events_app; last first.
  { simpl. rewrite <- !app_assoc. done. }
  done.
Qed.

Lemma image_run_decoder_failure_witness :
  (run (VStr "missing.png") {[ "top_k" := VStr "three" ]} env_missing_file
     (load env_missing_file make_image_classifier_runner world0).1.2
     (load env_missing_file make_image_classifier_runner world0).2).1.1
  = Raised (OtherError "FileNotFoundError" "No such file or directory").
Proof.
  pose proof (image_run_decoder_failure env_missing_file
                (load env_missing_file make_image_classifier_runner world0).1.2
                (load env_missing_file make_image_classifier_runner world0).2
                "missing.png" {[ "top_k" := VStr "three" ]} _
                eq_refl eq_refl eq_refl) as [H _].
  exact H.
Defined.

(** ** How much one run does *)

(** The events of the method under the decorators. *)
Lemma run_body_events user_input kwargs env self w :
  exists evs,
    trace (run_body user_input kwargs env self w).2 = (trace w ++ evs)%list /\
    clock_readings evs = [] /\
    (length (opened_paths evs) <= 1)%nat /\
    (length (printed evs) <= 1)%nat /\
    (length (pipe_calls evs) <= 1)%nat /\
    (default true (_logger_enabled self) = false -> printed evs = []).
Proof.
  assert (forall message,
    clock_readings (log_events message self) = [] /\
    opened_paths (log_events message self) = [] /\
    pipe_calls (log_events message self) = [] /\
    (length (printed (log_events message self)) <= 1)%nat /\
    (default true (_logger_enabled self) = false ->
     printed (log_events message self) = [])) as Hle.
  { intros message. unfold log_events.
    destruct (default true (_logger_enabled self)); simpl; repeat split; (done || lia). }
  assert (forall input top_k w1 evs1,
    trace w1 = (trace w ++ evs1)%list ->
    clock_readings evs1 = [] -> pipe_calls evs1 = [] ->
    (length (opened_paths evs1) <= 1)%nat ->
    (length (printed evs1) <= 1)%nat ->
    (default true (_logger_enabled self) = false -> printed evs1 = []) ->
    exists evs,
      trace (classify input top_k self w1).2 = (trace w ++ evs)%list /\
      clock_readings evs = [] /\
      (length (opened_paths evs) <= 1)%nat /\
      (length (printed evs) <= 1)%nat /\
      (length (pipe_calls evs) <= 1)%nat /\
      (default true (_logger_enabled self) = false -> printed evs = [])) as Hcl.
  { intros input top_k w1 evs1 Hw1 Hc Hpc Ho Hpr Hoff. unfold classify.
    destruct (_pipe self); simpl.
    - exists (evs1 ++ [EvPipeCall input top_k])%list.
      rewrite Hw1, <- app_assoc.
      unfold clock_readings, opened_paths, printed, pipe_calls in *.
      rewrite !omap_app, Hc, Hpc. simpl. rewrite !app_nil_r.
      repeat split; (done || lia).
    - exists evs1. rewrite Hpc. simpl. repeat split; (done || lia). }
  rewrite run_body_eq. destruct (cls self).
  - rewrite text_run_body_eq. destruct (py_len user_input) as [n|e]; simpl.
    + rewrite logged_eq. destruct (Hle ("Running text model on input length=" ++ pretty n))
        as (? & ? & ? & ? & ?).
      by eapply Hcl; simpl; eauto; try (rewrite H0; simpl; lia).
    + exists []. rewrite app_nil_r. simpl. repeat split; (done || lia).
  - rewrite image_run_body_eq.
    assert (exists evs1,
      trace (as_image user_input env w).2 = (trace w ++ evs1)%list /\
      clock_readings evs1 = [] /\ pipe_calls evs1 = [] /\ printed evs1 = [] /\
      (length (opened_paths evs1) <= 1)%nat)
      as (evs1 & Hevs1 & Hc1 & Hp1 & Hpr1 & Ho1).
    { unfold as_image. destruct user_input; simpl;
        try (exists []; rewrite app_nil_r; simpl; repeat split; (done || lia)).
      eexists; split; [done|]. simpl. repeat split; (done || lia). }
    destruct (as_image user_input env w) as [[img|e] w1]; simpl in *; last first.
    { exists evs1. rewrite Hp1, Hpr1. simpl. repeat split; (done || lia). }
    destruct (py_int _) as [top_k|e]; simpl; last first.
    { exists evs1. rewrite Hp1, Hpr1. simpl. repeat split; (done || lia). }
    rewrite logged_eq.
    destruct (Hle ("Running image model (top_k=" ++ pretty top_k
                     ++ ") on provided image...")) as (Hl1 & Hl2 & Hl3 & Hl4 & Hl5).
    eapply Hcl with (evs1 := (evs1 ++ log_events _ self)%list).
    + simpl. by rewrite Hevs1, <- app_assoc.
    + unfold clock_readings in *. by rewrite omap_app, Hc1, Hl1.
    + unfold pipe_calls in *. by rewrite omap_app, Hp1, Hl3.
    + unfold opened_paths in *. rewrite omap_app, Hl2, app_nil_r. done.
    + unfold printed in *. rewrite omap_app, Hpr1. done.
    + intros Hoff. unfold printed in *. rewrite omap_app, Hpr1. by apply Hl5.
Qed.

(** X13: one invocation of [run], on any runner in any state and for any
    input and options, calls the pipeline at most once, opens at most one
    image and prints at most one line; it reads the clock twice when the
    flag is set and not at all otherwise. *)
Theorem run_does_at_most_one_inference (env : Env) (self : Runner) (w : World)
    (user_input : value) (kwargs : gmap string value) :
  (length (pipe_calls (new_events w (run user_input kwargs env self w).2)) <= 1)%nat /\
  (length (opened_paths (new_events w (run user_input kwargs env self w).2)) <= 1)%nat /\
  (length (printed (new_events w (run user_input kwargs env self w).2)) <= 1)%nat /\
  length (clock_readings (new_events w (run user_input kwargs env self w).2))
    = (if _initialized self then 2 else 0)%nat.
Proof.
  destruct (_initialized self) eqn:Hinit; last first.
  { rewrite run_uninitialized_eq by done. simpl.
    unfold new_events. rewrite drop_all. simpl. repeat split; (done || lia). }
  pose proof (run_timed_eq env self w user_input kwargs Hinit) as H.
  simpl in H. rewrite H. simpl. clear H.
  destruct (run_body_events user_input kwargs env self
              {| tick := S (tick w);
                 trace := (trace w ++ [EvTime (time_time env (tick w))])%list |})
    as (evs & Hevs & Hc & Ho & Hpr & Hpc & _).
  erewrite new_events_app; last first.
  { simpl. rewrite Hevs. simpl. rewrite <- !app_assoc. done. }
  unfold clock_readings, opened_paths, printed, pipe_calls in *.
  rewrite !omap_app, Hc. simpl. rewrite !length_app. simpl.
  repeat split; lia.
Qed.

(** ** Logging *)

(** X14: with [_logger_enabled] set to a false value, no call of the
    public interface prints anything.  With the attribute absent or true,
    [load] prints exactly one line, made of the tag, the name of the
    class and the message naming task and model, whether the hub answers
    or raises. *)
Theorem logging_switch (env : Env) (self : Runner) (w : World) :
  (default true (_logger_enabled self) = false ->
   forall c, printed (new_events w (perform c env self w).2) = []) /\
  (default true (_logger_enabled self) = true ->
   printed (new_events w (load env self w).2)
     = ["[LOG] " ++ class_name (cls self) ++ ": " ++ load_message self]).
Proof.
  split.
  - intros Hoff c. destruct c as [|user_input kwargs| |].
    + rewrite perform_load_eq. simpl.
      pose proof (load_timed_eq env self w) as H. simpl in H.
      destruct (pipeline env (S (tick w)) (task self) (model_id self));
        rewrite H; simpl;
        (erewrite new_events_app by (simpl; reflexivity));
        unfold log_events; by rewrite Hoff.
    + rewrite perform_run_eq. simpl.
      destruct (_initialized self) eqn:Hinit; last first.
      { rewrite run_uninitialized_eq by done. simpl.
        unfold new_events. by rewrite drop_all. }
      pose proof (run_timed_eq env self w user_input kwargs Hinit) as H.
      simpl in H. rewrite H. simpl. clear H.
      destruct (run_body_events user_input kwargs env self
                  {| tick := S (tick w);
                     trace := (trace w ++ [EvTime (time_time env (tick w))])%list |})
        as (evs & Hevs & _ & _ & _ & _ & Hnone).
      erewrite new_events_app; last first.
      { simpl. rewrite Hevs. simpl. rewrite <- !app_assoc. done. }
      unfold printed in *. rewrite !omap_app, (Hnone Hoff). done.
    + simpl. unfold new_events. by rewrite drop_all.
    + simpl. unfold new_events. by rewrite drop_all.
  - intros Hon. pose proof (load_timed_eq env self w) as H. simpl in H.
    destruct (pipeline env (S (tick w)) (task self) (model_id self));
      rewrite H; simpl;
      (erewrite new_events_app by (simpl; reflexivity));
      unfold log_events; by rewrite Hon.
Qed.

Lemma logging_switch_witness :
  printed
    (new_events world0
       (perform CallLoad env_demo
          (with__logger_enabled false make_text_sentiment_runner) world0).2) = [] /\
  printed (new_events world0 (load env_demo make_text_sentiment_runner world0).2)
    = ["[LOG] TextModelRunner: Loading text pipeline: task=sentiment-analysis, model=distilbert-base-uncased-finetuned-sst-2-english"].
Proof.
  split.
  - apply (logging_switch env_demo
             (with__logger_enabled false make_text_sentiment_runner) world0).
    reflexivity.
  - apply (logging_switch env_demo make_text_sentiment_runner world0).
    reflexivity.
Defined.

(** * The window *)

Import AppGUI_methods.

Lemma with_text_runner_same app : with_text_runner (text_runner app) app = app.
Proof. by destruct app. Qed.

Lemma with_image_runner_same app : with_image_runner (image_runner app) app = app.
Proof. by destruct app. Qed.

Lemma classify_trace input top_k self w1 :
  trace (classify input top_k self w1).2 =
    (trace w1 ++ match _pipe self with
                 | Some _ => [EvPipeCall input top_k]
                 | None => []
                 end)%list.
Proof.
  unfold classify. destruct (_pipe self); simpl; [done|]. by rewrite app_nil_r.
Qed.

(** The arguments of the pipeline calls of one [run]. *)
Lemma run_pipe_calls env self w user_input kwargs c :
  c ∈ pipe_calls (new_events w (run user_input kwargs env self w).2) ->
  match cls self with
  | TextModelRunner => c = (user_input, None)
  | ImageModelRunner =>
      exists img k,
        c = (VImage img, Some k) /\
        py_int (default (VInt 5) (kwargs !! "top_k")) = Returned k
  end.
Proof.
  destruct (_initialized self) eqn:Hinit; last first.
  { rewrite run_uninitialized_eq by done. simpl.
    unfold new_events. rewrite drop_all. intros Hin. by apply elem_of_nil in Hin. }
  pose proof (run_timed_eq env self w user_input kwargs Hinit) as H.
  simpl in H. rewrite H. simpl. clear H.
  rewrite run_body_eq. destruct (cls self).
  - rewrite text_run_body_eq. destruct (py_len user_input) as [n|e]; simpl.
    + rewrite classify_trace, logged_eq. simpl.
      erewrite new_events_app by (rewrite <- !app_assoc; reflexivity).
      unfold pipe_calls, log_events. rewrite !omap_app.
      destruct (default true (_logger_enabled self)), (_pipe self); simpl;
        intros Hin;
        first [ by apply elem_of_nil in Hin
              | by apply list_elem_of_singleton in Hin ].
    + erewrite new_events_app by (rewrite <- !app_assoc; reflexivity).
      intros Hin. by apply elem_of_nil in Hin.
  - rewrite image_run_body_eq.
    assert (exists evs1,
      trace (as_image user_input env
               {| tick := S (tick w);
                  trace := (trace w ++ [EvTime (time_time env (tick w))])%list |}).2
        = (trace w ++ evs1)%list /\
      pipe_calls evs1 = []) as (evs1 & Hevs1 & Hp1).
    { unfold as_image. destruct user_input; simpl;
        try (by eexists [_]).
      eexists [_; _]. by rewrite <- app_assoc. }
    destruct (as_image user_input env _) as [[img|e] w1]; simpl in *; last first.
    { erewrite new_events_app; last first.
      { rewrite Hevs1, <- !app_assoc. done. }
      unfold pipe_calls in *. rewrite omap_app, Hp1. simpl.
      intros Hin. by apply elem_of_nil in Hin. }
    destruct (py_int _) as [top_k|e] eqn:Hk; simpl; last first.
    { erewrite new_events_app; last first.
      { rewrite Hevs1, <- !app_assoc. done. }
      unfold pipe_calls in *. rewrite omap_app, Hp1. simpl.
      intros Hin. by apply elem_of_nil in Hin. }
    rewrite classify_trace, logged_eq. simpl.
    erewrite new_events_app; last first.
    { rewrite Hevs1, <- !app_assoc. done. }
    unfold pipe_calls, log_events in *. rewrite !omap_app, Hp1.
    destruct (default true (_logger_enabled self)), (_pipe self); simpl;
      intros Hin;
      first [ by apply elem_of_nil in Hin
            | apply list_elem_of_singleton in Hin; eauto ].
Qed.

(** ** The run buttons *)

(** X15: a run button does nothing but warn when there is nothing to run.
    [_run_model1] in a mode other than text, or on a text that is empty
    once stripped of white space, and [_run_model2] in a mode other than
    image, or on a selected path that is empty once stripped, show one
    warning and leave the runners, the output and the outside world as
    they are: no runner method is called. *)
Theorem run_buttons_warn_without_input (genv : GuiEnv) (env : Env)
    (app : AppGUI) (w : World) :
  (input_mode app <> "text" ->
   _run_model1 genv env app w =
     (messagebox (showwarning "Input" "Switch input mode to Text to run Model 1.") app,
      w)) /\
  (input_mode app = "text" -> str_strip (input_text app ++ nl) = EmptyString ->
   _run_model1 genv env app w =
     (messagebox (showwarning "Input" "Please enter some text.") app, w)) /\
  (input_mode app <> "image" ->
   _run_model2 genv env app w =
     (messagebox (showwarning "Input" "Switch input mode to Image to run Model 2.") app,
      w)) /\
  (input_mode app = "image" -> str_strip (_selected_image_path app) = EmptyString ->
   _run_model2 genv env app w =
     (messagebox (showwarning "Input" "Please browse and select an image.") app, w)).
Proof.
  unfold _run_model1, _run_model2, input_text_get. repeat split.
  - intros Hmode. apply String.eqb_neq in Hmode. by rewrite Hmode.
  - intros -> Hblank. simpl. by rewrite Hblank.
  - intros Hmode. apply String.eqb_neq in Hmode. by rewrite Hmode.
  - intros -> Hblank. simpl. by rewrite Hblank.
Qed.

Lemma run_buttons_warn_without_input_witness :
  _run_model2 genv_demo env_demo __init__ world0 =
    (messagebox (showwarning "Input" "Switch input mode to Image to run Model 2.")
       __init__, world0) /\
  _run_model1 genv_demo env_demo (with_input_text "   " __init__) world0 =
    (messagebox (showwarning "Input" "Please enter some text.")
       (with_input_text "   " __init__), world0).
Proof.
  split.
  - apply (run_buttons_warn_without_input genv_demo env_demo __init__ world0).
    discriminate.
  - apply (run_buttons_warn_without_input genv_demo env_demo
             (with_input_text "   " __init__) world0); reflexivity.
Defined.

(** X16: a run button pressed before the model is loaded shows the error
    of the guard and changes nothing else.  With a text to run and the
    text runner not loaded, [_run_model1] shows the error dialog with the
    message of the initialization guard; so does [_run_model2] with a
    path selected and the image runner not loaded.  The output, the
    runners and the outside world stay as they are. *)
Theorem run_buttons_before_load (genv : GuiEnv) (env : Env)
    (app : AppGUI) (w : World) :
  (input_mode app = "text" -> str_strip (input_text app ++ nl) <> EmptyString ->
   _initialized (text_runner app) = false ->
   _run_model1 genv env app w =
     (messagebox (showerror "Error" "Model is not initialized. Call `load()` first.") app,
      w)) /\
  (input_mode app = "image" -> str_strip (_selected_image_path app) <> EmptyString ->
   _initialized (image_runner app) = false ->
   _run_model2 genv env app w =
     (messagebox (showerror "Error" "Model is not initialized. Call `load()` first.") app,
      w)).
Proof.
  unfold _run_model1, _run_model2, input_text_get. split.
  - intros -> Htxt Hinit. simpl.
    destruct (str_strip (input_text app ++ nl)) as [|a txt]; [done|].
    rewrite run_uninitialized_eq by done. simpl.
    by rewrite with_text_runner_same.
  - intros -> Hpath Hinit. simpl.
    destruct (str_strip (_selected_image_path app)) as [|a path]; [done|].
    rewrite run_uninitialized_eq by done. simpl.
    by rewrite with_image_runner_same.
Qed.

Lemma run_buttons_before_load_witness :
  _run_model1 genv_demo env_demo (with_input_text "I love this!" __init__) world0 =
    (messagebox (showerror "Error" "Model is not initialized. Call `load()` first.")
       (with_input_text "I love this!" __init__), world0).
Proof.
  apply (run_buttons_before_load genv_demo env_demo
           (with_input_text "I love this!" __init__) world0).
  - reflexivity.
  - vm_compute. discriminate.
  - reflexivity.
Defined.

(** X17: what the run buttons hand to the pipelines.  When the window
    holds a text runner and an image runner, every pipeline call made by
    [_run_model1] is on a string, the text of the input widget stripped
    of white space and not empty, and without [top_k]; every pipeline
    call made by [_run_model2] is on an image and with [top_k=1].
    Neither button touches the runner of the other. *)
Theorem run_buttons_pipeline_arguments (genv : GuiEnv) (env : Env)
    (app : AppGUI) (w : World) :
  cls (text_runner app) = TextModelRunner ->
  cls (image_runner app) = ImageModelRunner ->
  (forall c, c ∈ pipe_calls (new_events w (_run_model1 genv env app w).2) ->
     c = (VStr (str_strip (input_text app ++ nl)), None) /\
     str_strip (input_text app ++ nl) <> EmptyString) /\
  image_runner (_run_model1 genv env app w).1 = image_runner app /\
  (forall c, c ∈ pipe_calls (new_events w (_run_model2 genv env app w).2) ->
     exists img, c = (VImage img, Some 1%Z)) /\
  text_runner (_run_model2 genv env app w).1 = text_runner app.
Proof.
  intros Htext Himage.
  assert (forall c, c ∈ pipe_calls (new_events w w) -> False) as Hnone.
  { intros c. unfold new_events. rewrite drop_all. apply elem_of_nil. }
  unfold _run_model1, _run_model2, input_text_get.
  split; [|split; [|split]].
  - intros c Hin. destruct (negb _); simpl in *; [by apply Hnone in Hin|].
    destruct (str_strip (input_text app ++ nl)) as [|a txt] eqn:Htxt;
      simpl in *; [by apply Hnone in Hin|].
    split; [|done].
    pose proof (run_pipe_calls env (text_runner app) w (VStr (String a txt)) ∅ c) as Hc.
    rewrite Htext in Hc. apply Hc.
    destruct (run _ _ _ _ _) as [[[d|e] r] w']; simpl in *;
      [destruct (_format_text_result_top1 genv d)|]; done.
  - destruct (negb _); simpl; [done|].
    destruct (str_strip (input_text app ++ nl)) as [|a txt]; simpl; [done|].
    destruct (run _ _ _ _ _) as [[[d|e] r] w']; simpl;
      [destruct (_format_text_result_top1 genv d)|]; done.
  - intros c Hin. destruct (negb _); simpl in *; [by apply Hnone in Hin|].
    destruct (str_strip (_selected_image_path app)) as [|a path] eqn:Hpath;
      simpl in *; [by apply Hnone in Hin|].
    pose proof (run_pipe_calls env (image_runner app) w (VStr (String a path))
                  {[ "top_k" := VInt 1 ]} c) as Hc.
    rewrite Himage in Hc.
    destruct Hc as (img & k & -> & Hk).
    { destruct (run _ _ _ _ _) as [[[d|e] r] w']; simpl in *;
        [destruct (_format_image_result_top1 genv d)|]; done. }
    exists img. rewrite lookup_singleton_eq in Hk. simpl in Hk. by injection Hk as <-.
  - destruct (negb _); simpl; [done|].
    destruct (str_strip (_selected_image_path app)) as [|a path]; simpl; [done|].
    destruct (run _ _ _ _ _) as [[[d|e] r] w']; simpl;
      [destruct (_format_image_result_top1 genv d)|]; done.
Qed.

Lemma run_buttons_pipeline_arguments_witness :
  exists img,
    (VImage {| image_class := "PngImageFile"; image_id := 7 |}, Some 1%Z)
      = (VImage img, Some 1%Z).
Proof.
  pose proof (run_buttons_pipeline_arguments genv_demo env_demo
           (_load_runner "model2" env_demo
              (with__selected_image_path " cat.png "
                 (with_input_mode "image" __init__)) world0).1
           (_load_runner "model2" env_demo
              (with__selected_image_path " cat.png "
                 (with_input_mode "image" __init__)) world0).2
           eq_refl eq_refl) as (_ & _ & H & _).
  apply (H (VImage {| image_class := "PngImageFile"; image_id := 7 |}, Some 1%Z)).
  vm_compute. constructor.
Defined.

(** ** What the output shows *)

(** With the flag set, [run] of a text runner on a string. *)
Lemma text_run_string_eq env self w s kwargs p :
  cls self = TextModelRunner ->
  _initialized self = true ->
  _pipe self = Some p ->
  run (VStr s) kwargs env self w =
    (match pipe_call p (S (tick w)) (VStr s) None with
     | Returned results => Returned (result_dict results self)
     | Raised e => Raised e
     end,
     with_last_runtime_s
       (time_time env (S (S (tick w))) - time_time env (tick w)) self,
     {| tick := S (S (S (tick w)));
        trace := trace w ++ [EvTime (time_time env (tick w))]
                   ++ log_events ("Running text model on input length="
                                    ++ pretty (String.length s)) self
                   ++ [EvPipeCall (VStr s) None;
                       EvTime (time_time env (S (S (tick w))));
                       EvSetAttr "last_runtime_s"] |}).
Proof.
  intros Hcls Hinit Hp.
  pose proof (run_timed_eq env self w (VStr s) kwargs Hinit) as H. simpl in H.
  rewrite run_body_eq, Hcls, text_run_body_eq in H. simpl in H.
  rewrite logged_eq in H. unfold classify in H. rewrite Hp in H. simpl in H.
  rewrite H. by rewrite <- !app_assoc.
Qed.

(** X18: the runtime that [_run_model1] displays is not the runtime of the
    run it has just made.  In text mode, with a text to run, on a loaded
    text runner whose pipeline returns a list starting with a mapping, and
    when the two numbers can be formatted: the output shows the label,
    the score and, as Runtime, the value [last_runtime_s] had before this
    run, while [last_runtime_s] now holds the duration of this run; no
    dialog is shown and the output widget is left disabled. *)
Theorem run_model1_shows_previous_runtime (genv : GuiEnv) (env : Env)
    (app : AppGUI) (w : World) (p : Pipe) (rd : gmap string value)
    (rest : list value) (fs fr : string) :
  input_mode app = "text" ->
  str_strip (input_text app ++ nl) <> EmptyString ->
  cls (text_runner app) = TextModelRunner ->
  _initialized (text_runner app) = true ->
  _pipe (text_runner app) = Some p ->
  pipe_call p (S (tick w)) (VStr (str_strip (input_text app ++ nl))) None
    = Returned (VList (VDict rd :: rest)) ->
  py_format genv (default (VFloat 0) (rd !! "score")) ".4f" = Returned fs ->
  py_format genv (VFloat (last_runtime_s (text_runner app))) ".3f" = Returned fr ->
  output_text (_run_model1 genv env app w).1 =
    "Label: " ++ py_str genv (default (VStr "?") (rd !! "label")) ++ nl
      ++ "Score: " ++ fs ++ nl ++ "Runtime: " ++ fr ++ "s" /\
  last_runtime_s (text_runner (_run_model1 genv env app w).1)
    = (time_time env (S (S (tick w))) - time_time env (tick w))%Q /\
  dialogs (_run_model1 genv env app w).1 = dialogs app /\
  output_state (_run_model1 genv env app w).1 = "disabled".
Proof.
  intros Hmode Htxt Hcls Hinit Hp Hcall Hfs Hfr.
  unfold _run_model1, input_text_get. rewrite Hmode. simpl.
  destruct (str_strip (input_text app ++ nl)) as [|a txt] eqn:Hstrip; [done|].
  rewrite (text_run_string_eq env (text_runner app) w (String a txt) ∅ p)
    by done.
  rewrite Hcall.
  unfold _format_text_result_top1, format_top1.
  rewrite result_dict_results, result_dict_runtime_s. simpl.
  rewrite Hfs, Hfr. done.
Qed.

Lemma run_model1_shows_previous_runtime_witness :
  output_text
    (_run_model1 genv_demo env_demo
       (_load_runner "model1" env_demo
          (with_input_text " I love this! " __init__) world0).1
       (_load_runner "model1" env_demo
          (with_input_text " I love this! " __init__) world0).2).1
  = "Label: POSITIVE" ++ nl ++ "Score: 0.9900" ++ nl ++ "Runtime: 3.000s" /\
  last_runtime_s
    (text_runner
       (_run_model1 genv_demo env_demo
          (_load_runner "model1" env_demo
             (with_input_text " I love this! " __init__) world0).1
          (_load_runner "model1" env_demo
             (with_input_text " I love this! " __init__) world0).2).1)
  = (21 - 20)%Q.
Proof.
  pose proof (run_model1_shows_previous_runtime genv_demo env_demo
    (_load_runner "model1" env_demo
       (with_input_text " I love this! " __init__) world0).1
    (_load_runner "model1" env_demo
       (with_input_text " I love this! " __init__) world0).2
    pipe_demo {[ "label" := VStr "POSITIVE"; "score" := VFloat (99 # 100) ]} []
    "0.9900" "3.000") as H.
  destruct H as (H1 & H2 & _).
  - reflexivity.
  - vm_compute. discriminate.
  - reflexivity.
  - reflexivity.
  - reflexivity.
  - reflexivity.
  - reflexivity.
  - reflexivity.
  - exact (conj H1 H2).
Defined.

(** ** Formatting a result *)

(** X19: how a result is turned into the text of the output.  Both
    formatting methods look at the first entry of the results only.  When
    the results are missing, not a list, empty, or start with something
    that is not a mapping, and when one of the two numbers cannot be
    formatted, the text is [json.dumps] of the whole result; otherwise it
    is the three lines with the label (["?"] when the entry has none),
    the score (0.0 when the entry has none) and the runtime.  So the
    methods raise only if [json.dumps] does. *)
Theorem format_top1_cases (genv : GuiEnv) (first : string)
    (result_dict : gmap string value) :
  (top_entry result_dict = None ->
   format_top1 genv first result_dict = json_dumps genv result_dict) /\
  (forall rd fs fr,
     top_entry result_dict = Some rd ->
     py_format genv (default (VFloat 0) (rd !! "score")) ".4f" = Returned fs ->
     py_format genv (default (VFloat 0) (result_dict !! "runtime_s")) ".3f"
       = Returned fr ->
     format_top1 genv first result_dict =
       Returned (first ++ py_str genv (default (VStr "?") (rd !! "label")) ++ nl
                   ++ "Score: " ++ fs ++ nl ++ "Runtime: " ++ fr ++ "s")) /\
  (forall rd e,
     top_entry result_dict = Some rd ->
     py_format genv (default (VFloat 0) (rd !! "score")) ".4f" = Raised e \/
     py_format genv (default (VFloat 0) (result_dict !! "runtime_s")) ".3f"
       = Raised e ->
     format_top1 genv first result_dict = json_dumps genv result_dict) /\
  ((exists text, json_dumps genv result_dict = Returned text) ->
   exists text, format_top1 genv first result_dict = Returned text) /\
  _format_text_result_top1 genv result_dict = format_top1 genv "Label: " result_dict /\
  _format_image_result_top1 genv result_dict
    = format_top1 genv "Top-1 Prediction: " result_dict.
Proof.
  unfold top_entry, format_top1.
  split; [|split; [|split; [|split; [|done]]]].
  - intros Htop.
    destruct (default (VList []) (result_dict !! "results")) as [| | | | | |l|];
      try by destruct (json_dumps genv result_dict).
    destruct l as [|r l]; [by destruct (json_dumps genv result_dict)|].
    by destruct r.
  - intros rd fs fr Htop Hfs Hfr.
    destruct (default (VList []) (result_dict !! "results")) as [| | | | | |l|];
      try done.
    destruct l as [|r l]; [done|]. destruct r; try done.
    injection Htop as ->. by rewrite Hfs, Hfr.
  - intros rd e Htop Hfail.
    destruct (default (VList []) (result_dict !! "results")) as [| | | | | |l|];
      try done.
    destruct l as [|r l]; [done|]. destruct r; try done.
    injection Htop as ->.
    destruct (py_format genv (default (VFloat 0) (rd !! "score")) ".4f") as [fs|e1].
    + destruct Hfail as [Hfail|Hfail]; [done|]. by rewrite Hfail.
    + done.
  - intros [text Hjson]. rewrite Hjson.
    destruct (default (VList []) (result_dict !! "results")) as [| | | | | |l|];
      eauto.
    destruct l as [|r l]; [eauto|]. destruct r; eauto.
    destruct (py_format genv _ ".4f"); [|eauto].
    destruct (py_format genv _ ".3f"); eauto.
Qed.

Lemma format_top1_cases_witness :
  _format_image_result_top1 genv_demo
    {[ "results" := VList []; "runtime_s" := VFloat 1 ]} = Returned "{}" /\
  _format_image_result_top1 genv_demo
    {[ "results" := VList [score "tabby" (6 # 10); score "lynx" (1 # 10)];
       "runtime_s" := VFloat (1 # 2) ]}
  = Returned ("Top-1 Prediction: tabby" ++ nl ++ "Score: 0.6000" ++ nl
                ++ "Runtime: 0.500s").
Proof.
  split.
  - apply (format_top1_cases genv_demo "Top-1 Prediction: "
             {[ "results" := VList []; "runtime_s" := VFloat 1 ]}).
    reflexivity.
  - pose proof (format_top1_cases genv_demo "Top-1 Prediction: "
             {[ "results" := VList [score "tabby" (6 # 10); score "lynx" (1 # 10)];
                "runtime_s" := VFloat (1 # 2) ]}) as (_ & H & _).
    exact (H {[ "label" := VStr "tabby"; "score" := VFloat (6 # 10) ]}
             "0.6000" "0.500" eq_refl eq_refl eq_refl).
Defined.

(** ** The load button and the menu *)

Lemma keeps_runner_stable self :
  stable (keeps_runner self).
Proof. split; intros; unfold keeps_runner, same_config in *; simpl; intuition. Qed.

Lemma keeps_runner_refl self : keeps_runner self self.
Proof. by repeat split. Qed.

Lemma keeps_runner_load env self w : keeps_runner self (load env self w).1.2.
Proof.
  apply (preserves_load _ (keeps_runner_stable self)), keeps_runner_refl.
Qed.

Lemma keeps_runner_run user_input kwargs env self w :
  keeps_runner self (run user_input kwargs env self w).1.2.
Proof.
  apply (preserves_run _ (keeps_runner_stable self)), keeps_runner_refl.
Qed.

(** X20: which runner a load loads.  [_load_runner] loads the text runner
    for ["model1"] and the image runner for any other name;
    [_load_selected_model] loads the text runner when the combobox is at
    index 0 and the image runner at any other index, -1 for no selection
    included.  The other runner and every widget are left alone, and
    exactly one dialog is added: the information that the model was
    loaded, or the error with the text of the exception. *)
Theorem load_button_dispatch (env : Env) (app : AppGUI) (w : World) (which : string) :
  let text_loaded :=
    (messagebox
       match (load env (text_runner app) w).1.1 with
       | Returned _ => showinfo "Model" "Model loaded successfully."
       | Raised e => showerror "Error" (exn_str e)
       end
       (with_text_runner (load env (text_runner app) w).1.2 app),
     (load env (text_runner app) w).2) in
  let image_loaded :=
    (messagebox
       match (load env (image_runner app) w).1.1 with
       | Returned _ => showinfo "Model" "Model loaded successfully."
       | Raised e => showerror "Error" (exn_str e)
       end
       (with_image_runner (load env (image_runner app) w).1.2 app),
     (load env (image_runner app) w).2) in
  _load_runner "model1" env app w = text_loaded /\
  (which <> "model1" -> _load_runner which env app w = image_loaded) /\
  (model_select app = 0%Z -> _load_selected_model env app w = text_loaded) /\
  (model_select app <> 0%Z -> _load_selected_model env app w = image_loaded).
Proof.
  intros text_loaded image_loaded. subst text_loaded image_loaded.
  unfold _load_selected_model, _load_runner.
  split; [|split; [|split]].
  - simpl. by destruct (load env (text_runner app) w) as [[[[]|e] r] w'].
  - intros Hwhich. apply String.eqb_neq in Hwhich. rewrite Hwhich.
    by destruct (load env (image_runner app) w) as [[[[]|e] r] w'].
  - intros ->. simpl.
    by destruct (load env (text_runner app) w) as [[[[]|e] r] w'].
  - intros Hidx. apply Z.eqb_neq in Hidx. rewrite Hidx. simpl.
    by destruct (load env (image_runner app) w) as [[[[]|e] r] w'].
Qed.

Lemma load_button_dispatch_witness :
  _initialized
    (image_runner (_load_selected_model env_demo (with_model_select (-1) __init__)
                     world0).1) = true /\
  _initialized
    (text_runner (_load_selected_model env_demo (with_model_select (-1) __init__)
                    world0).1) = false.
Proof.
  pose proof (load_button_dispatch env_demo (with_model_select (-1) __init__)
                world0 "model2") as (_ & _ & _ & H).
  rewrite H by discriminate. split; reflexivity.
Defined.

(** ** The information panel *)

Lemma meta_same_config self self' :
  same_config self self' -> meta self' = meta self.
Proof.
  intros (Hc & Hm & Ht & Hcat & Hd).
  unfold meta, BaseModelRunner.meta, describe,
    TextModelRunner.describe, ImageModelRunner.describe.
  by rewrite Hc, Hm, Ht, Hcat, Hd.
Qed.

(** X21: the information panel shows the model identifier, the category
    and the description of the selected runner, the text runner at index
    0 and the image runner at any other index; and what it shows does not
    depend on whether a model was loaded: after [_load_selected_model],
    returning or raising, [_update_selected_model_info] writes the same
    three labels as before. *)
Theorem info_panel_shows_metadata (env : Env) (app : AppGUI) (w : World) :
  let runner := if (model_select app =? 0)%Z then text_runner app else image_runner app in
  let shown := _update_selected_model_info app in
  let reloaded := _update_selected_model_info (_load_selected_model env app w).1 in
  info_model_name shown = "• Model Name: " ++ model_id runner /\
  info_model_cat shown = "• Category (Text, Vision, Audio): " ++ category runner /\
  info_model_desc shown =
    "• Short Description: " ++ str_or (short_description runner) (describe runner) /\
  info_model_name reloaded = info_model_name shown /\
  info_model_cat reloaded = info_model_cat shown /\
  info_model_desc reloaded = info_model_desc shown.
Proof.
  intros runner shown reloaded. subst runner shown reloaded.
  split; [done|]. split; [done|]. split; [done|].
  unfold _update_selected_model_info, _selected_runner, _load_selected_model,
    _load_runner.
  destruct (model_select app =? 0)%Z eqn:Hidx; simpl.
  - pose proof (keeps_runner_load env (text_runner app) w) as [Hcfg _].
    destruct (load env (text_runner app) w) as [[[[]|e] r] w']; simpl in *;
      rewrite Hidx; simpl; by rewrite (meta_same_config _ _ Hcfg).
  - pose proof (keeps_runner_load env (image_runner app) w) as [Hcfg _].
    destruct (load env (image_runner app) w) as [[[[]|e] r] w']; simpl in *;
      rewrite Hidx; simpl; by rewrite (meta_same_config _ _ Hcfg).
Qed.

(** ** Clearing *)

(** X22: [_clear_io] empties the input text, the selected path, the
    preview and the output, and touches neither runner, so a loaded model
    stays loaded.  Right after it, [_run_model1] in text mode and
    [_run_model2] in image mode only warn that there is nothing to run. *)
Theorem clear_io_then_run (genv : GuiEnv) (env : Env) (app : AppGUI) (w : World) :
  text_runner (_clear_io app) = text_runner app /\
  image_runner (_clear_io app) = image_runner app /\
  input_mode (_clear_io app) = input_mode app /\
  input_text (_clear_io app) = EmptyString /\
  _selected_image_path (_clear_io app) = EmptyString /\
  output_text (_clear_io app) = EmptyString /\
  _preview_photo (_clear_io app) = None /\
  preview_label_image (_clear_io app) = None /\
  preview_label_text (_clear_io app) = "No image selected" /\
  (input_mode app = "text" ->
   _run_model1 genv env (_clear_io app) w =
     (messagebox (showwarning "Input" "Please enter some text.") (_clear_io app), w)) /\
  (input_mode app = "image" ->
   _run_model2 genv env (_clear_io app) w =
     (messagebox (showwarning "Input" "Please browse and select an image.")
        (_clear_io app), w)).
Proof.
  repeat (split; [done|]).
  split; intros Hmode; unfold _run_model1, _run_model2, input_text_get; simpl;
    by rewrite Hmode.
Qed.

Lemma clear_io_then_run_witness :
  _run_model1 genv_demo env_demo
    (_clear_io (with_input_text "I love this!" __init__)) world0 =
    (messagebox (showwarning "Input" "Please enter some text.")
       (_clear_io (with_input_text "I love this!" __init__)), world0).
Proof.
  apply (clear_io_then_run genv_demo env_demo
           (with_input_text "I love this!" __init__) world0).
  reflexivity.
Defined.

(** ** Browsing for an image *)

Lemma pick_image_frame genv env app w :
  text_runner (_pick_image genv env app w).1 = text_runner app /\
  image_runner (_pick_image genv env app w).1 = image_runner app.
Proof.
  unfold _pick_image.
  assert (
    text_runner (if negb (String.eqb (input_mode app) "image")
                 then _update_input_view (with_input_mode "image" app) else app)
      = text_runner app /\
    image_runner (if negb (String.eqb (input_mode app) "image")
                  then _update_input_view (with_input_mode "image" app) else app)
      = image_runner app) as [Ht Hi].
  { unfold _update_input_view. simpl.
    by destruct (String.eqb (input_mode app) "image"). }
  destruct (askopenfilename genv (tick w)); [done|]; simpl.
  destruct (Image_open_convert env _ _); [|done].
  by destruct (make_preview genv _ _).
Qed.

(** X23: [_pick_image] always leaves the window in image mode with the
    image container shown, and touches neither runner.  When the dialog
    is cancelled, the selected path and the preview stay as they were and
    no dialog is shown.  When a path is chosen, it becomes the selected
    path before the preview is made: if the decoder raises on it, the
    error is shown, the preview is left as it was, and the path stays
    selected. *)
Theorem pick_image_cases (genv : GuiEnv) (env : Env) (app : AppGUI) (w : World) :
  input_mode (_pick_image genv env app w).1 = "image" /\
  (input_mode app <> "image" ->
   input_view (_pick_image genv env app w).1 = "image_container") /\
  text_runner (_pick_image genv env app w).1 = text_runner app /\
  image_runner (_pick_image genv env app w).1 = image_runner app /\
  (askopenfilename genv (tick w) = EmptyString ->
   _selected_image_path (_pick_image genv env app w).1 = _selected_image_path app /\
   _preview_photo (_pick_image genv env app w).1 = _preview_photo app /\
   dialogs (_pick_image genv env app w).1 = dialogs app /\
   trace (_pick_image genv env app w).2 = trace w) /\
  (forall e,
     askopenfilename genv (tick w) <> EmptyString ->
     Image_open_convert env (S (tick w)) (askopenfilename genv (tick w)) = Raised e ->
     _selected_image_path (_pick_image genv env app w).1 = askopenfilename genv (tick w) /\
     _preview_photo (_pick_image genv env app w).1 = _preview_photo app /\
     dialogs (_pick_image genv env app w).1
       = (dialogs app ++ [showerror "Error" (exn_str e)])%list).
Proof.
  assert (input_mode
            (if negb (String.eqb (input_mode app) "image")
             then _update_input_view (with_input_mode "image" app) else app)
          = "image") as Hmode.
  { destruct (String.eqb (input_mode app) "image") eqn:E; simpl.
    - by apply String.eqb_eq in E.
    - done. }
  unfold _pick_image. simpl.
  set (app1 := if negb (String.eqb (input_mode app) "image")
               then _update_input_view (with_input_mode "image" app) else app) in *.
  assert (text_runner app1 = text_runner app /\
          image_runner app1 = image_runner app /\
          _selected_image_path app1 = _selected_image_path app /\
          _preview_photo app1 = _preview_photo app /\
          dialogs app1 = dialogs app) as (Ht & Hi & Hs & Hp & Hd).
  { subst app1. by destruct (negb _). }
  assert (input_mode app <> "image" -> input_view app1 = "image_container") as Hview.
  { intros Hne. subst app1. apply String.eqb_neq in Hne. by rewrite Hne. }
  split; [|split; [|split; [|split; [|split]]]].
  - destruct (askopenfilename genv (tick w)); [done|]; simpl.
    destruct (Image_open_convert env _ _); [|done].
    by destruct (make_preview genv _ _).
  - intros Hne. specialize (Hview Hne).
    destruct (askopenfilename genv (tick w)); [done|]; simpl.
    destruct (Image_open_convert env _ _); [|done].
    by destruct (make_preview genv _ _).
  - destruct (askopenfilename genv (tick w)); [done|]; simpl.
    destruct (Image_open_convert env _ _); [|done].
    by destruct (make_preview genv _ _).
  - destruct (askopenfilename genv (tick w)); [done|]; simpl.
    destruct (Image_open_convert env _ _); [|done].
    by destruct (make_preview genv _ _).
  - intros ->. done.
  - intros e Hpath Hopen.
    destruct (askopenfilename genv (tick w)) as [|a path]; [done|]. simpl.
    rewrite Hopen. simpl. by rewrite Hd.
Qed.

Lemma pick_image_cases_witness :
  _selected_image_path
    (_pick_image genv_cancel env_demo (with__selected_image_path "dog.png" __init__)
       world0).1 = "dog.png" /\
  _selected_image_path (_pick_image genv_demo env_missing_file __init__ world0).1
    = "cat.png" /\
  dialogs (_pick_image genv_demo env_missing_file __init__ world0).1
    = [showerror "Error" "No such file or directory"].
Proof.
  pose proof (pick_image_cases genv_cancel env_demo
                (with__selected_image_path "dog.png" __init__) world0)
    as (_ & _ & _ & _ & H1 & _).
  pose proof (pick_image_cases genv_demo env_missing_file __init__ world0)
    as (_ & _ & _ & _ & _ & H2).
  destruct (H1 eq_refl) as (H1' & _).
  destruct (H2 (OtherError "FileNotFoundError" "No such file or directory"))
    as (H2a & _ & H2b).
  - discriminate.
  - reflexivity.
  - exact (conj H1' (conj H2a H2b)).
Defined.

(** ** What no handler does *)

(** X24: whatever handler of the window is called, and whatever the
    outside world answers, both runners keep their class, model
    identifier, task, category and description, and a runner that was
    loaded is still loaded: the window has no way to unload or to
    reconfigure a model. *)
Theorem handlers_keep_runners (h : handler) (genv : GuiEnv) (env : Env)
    (app : AppGUI) (w : World) :
  keeps_runner (text_runner app) (text_runner (handle h genv env app w).1) /\
  keeps_runner (image_runner app) (image_runner (handle h genv env app w).1).
Proof.
  destruct h as [which| | | | | | |]; simpl.
  - unfold _load_runner. destruct (String.eqb which "model1").
    + pose proof (keeps_runner_load env (text_runner app) w) as H.
      destruct (load env (text_runner app) w) as [[[[]|e] r] w']; simpl in *;
        split; (done || apply keeps_runner_refl).
    + pose proof (keeps_runner_load env (image_runner app) w) as H.
      destruct (load env (image_runner app) w) as [[[[]|e] r] w']; simpl in *;
        split; (done || apply keeps_runner_refl).
  - unfold _load_selected_model, _load_runner.
    destruct (model_select app =? 0)%Z; simpl.
    + pose proof (keeps_runner_load env (text_runner app) w) as H.
      destruct (load env (text_runner app) w) as [[[[]|e] r] w']; simpl in *;
        split; (done || apply keeps_runner_refl).
    + pose proof (keeps_runner_load env (image_runner app) w) as H.
      destruct (load env (image_runner app) w) as [[[[]|e] r] w']; simpl in *;
        split; (done || apply keeps_runner_refl).
  - unfold _run_model1. destruct (negb _); simpl;
      [split; apply keeps_runner_refl|].
    destruct (str_strip (input_text_get app)) as [|a txt]; simpl;
      [split; apply keeps_runner_refl|].
    pose proof (keeps_runner_run (VStr (String a txt)) ∅ env (text_runner app) w) as H.
    destruct (run _ _ _ _ _) as [[[d|e] r] w']; simpl in *;
      [destruct (_format_text_result_top1 genv d)|]; simpl;
      split; (done || apply keeps_runner_refl).
  - unfold _run_model2. destruct (negb _); simpl;
      [split; apply keeps_runner_refl|].
    destruct (str_strip (_selected_image_path app)) as [|a path]; simpl;
      [split; apply keeps_runner_refl|].
    pose proof (keeps_runner_run (VStr (String a path)) {[ "top_k" := VInt 1 ]}
                  env (image_runner app) w) as H.
    destruct (run _ _ _ _ _) as [[[d|e] r] w']; simpl in *;
      [destruct (_format_image_result_top1 genv d)|]; simpl;
      split; (done || apply keeps_runner_refl).
  - split; apply keeps_runner_refl.
  - pose proof (pick_image_frame genv env app w) as [-> ->].
    split; apply keeps_runner_refl.
  - split; apply keeps_runner_refl.
  - unfold _update_input_view. destruct (String.eqb _ _);
      split; apply keeps_runner_refl.
Qed.
